(** * BL2 platform setup of the STM32MP1 port (plat/st/stm32mp1/bl2_plat_setup.c)

    A shallow embedding of the three decision procedures of the file:
    - [Monotonic.update_monotonic_counter], the anti-rollback counter update;
    - [Clock.initialize_clock], the selection of the CPU operating point;
    - [PostLoad.bl2_plat_handle_post_image_load], the per-image resolver.

    Drivers and accessors the file calls but does not define are taken as
    oracles (fields of an environment record); every call that acts on the
    hardware or on driver state is recorded in a trace. *)

From Stdlib Require Import ZArith List Bool Lia String.
From stdpp Require Import base option gmap.
Import ListNotations.

Local Open Scope Z_scope.

(** ** Machine integers

    The platform is AArch32: [uint32_t], [uintptr_t], [u_register_t] and
    [unsigned int] are 32 bits wide, [uint16_t] is 16 bits wide. *)

Definition u32 (x : Z) : Z := x mod 2 ^ 32.
Definition u16 (x : Z) : Z := x mod 2 ^ 16.

(** [BIT(nr)] is [U(1) << nr] on a 32-bit unsigned; C leaves the shift
    undefined for [nr >= 32], where this definition yields 0. *)
Definition BIT (nr : Z) : Z := u32 (Z.shiftl 1 nr).

(** ** Control: a state monad with an abrupt halt

    [panic()] never returns, a failed [assert] stops the boot, and a load
    or store through a NULL pointer is a fault. *)

Inductive halt : Type :=
| PanicCalled
| AssertFailed
| NullDeref.

Inductive result (S A : Type) : Type :=
| Done (a : A) (s : S)
| Halt (h : halt) (s : S).

Arguments Done {S A} a s.
Arguments Halt {S A} h s.

Definition M (S A : Type) : Type := S -> result S A.

Definition mret {S A} (a : A) : M S A := fun s => Done a s.

Definition mbind {S A B} (c : M S A) (k : A -> M S B) : M S B :=
  fun s => match c s with
           | Done a s' => k a s'
           | Halt h s' => Halt h s'
           end.

Definition panic {S A} : M S A := fun s => Halt PanicCalled s.

Definition assert {S} (b : bool) : M S unit :=
  fun s => if b then Done tt s else Halt AssertFailed s.

Definition mget {S} : M S S := fun s => Done s s.
Definition mmodify {S} (f : S -> S) : M S unit := fun s => Done tt (f s).

Declare Scope boot_scope.
Delimit Scope boot_scope with boot.
Notation "x <- c1 ;; c2" := (mbind c1 (fun x => c2))
  (at level 100, c1 at next level, right associativity) : boot_scope.
Notation "c1 ;;; c2" := (mbind c1 (fun _ => c2))
  (at level 100, right associativity) : boot_scope.

(** The state a run ends in, whether it returned or halted. *)
Definition final_state {S A} (r : result S A) : S :=
  match r with
  | Done _ s => s
  | Halt _ s => s
  end.

(** ** The anti-rollback counter *)

Module Monotonic.

(** The BSEC/OTP collaborators.
    [stm32_get_otp_index] yields the index of the word ([None] when it
    returns non-zero); [stm32_get_otp_value] may fail; and
    [bsec_program_otp] reports [BSEC_OK] or an error. *)
Record otp_env : Type := {
  stm32_get_otp_index : option Z;
  stm32_get_otp_value_ok : bool;
  bsec_program_otp_ok : bool
}.

(** The fuse word and the programming requests issued so far,
    oldest first: (value, word index). *)
Record otp_state : Type := {
  fuse : Z;
  programmed : list (Z * Z)
}.

(** Modelled from the spec: [bsec_program_otp] of drivers/st/bsec is not
    part of the file. One-time-programmable storage "can transition bits
    in one direction only and cannot be erased": a successful request
    ORs the value into the word, a failed one leaves it as it was. *)
Definition bsec_program_otp (e : otp_env) (val otp : Z) : M otp_state bool :=
  fun s =>
    Done (bsec_program_otp_ok e)
         {| fuse := if bsec_program_otp_ok e then Z.lor (fuse s) val else fuse s;
            programmed := programmed s ++ [(val, otp)] |}.

(** [STM32_TF_VERSION] is a build-time constant; [CASSERT] bounds it by
    [MAX_MONOTONIC_VALUE] at build time and leaves no code. *)
Definition update_monotonic_counter (STM32_TF_VERSION : Z) (e : otp_env)
  : M otp_state unit :=
  (match stm32_get_otp_index e with
   | None => panic
   | Some otp =>
       if negb (stm32_get_otp_value_ok e) then panic
       else
         s <- mget ;;
         let version := fuse s in
         if u32 (version + 1) <? BIT STM32_TF_VERSION then
           let version := u32 (BIT STM32_TF_VERSION - 1) in
           ok <- bsec_program_otp e version otp ;;
           if negb ok then panic else mret tt
         else mret tt
   end)%boot.

Definition nominal : otp_env :=
  {| stm32_get_otp_index := Some 4;
     stm32_get_otp_value_ok := true;
     bsec_program_otp_ok := true |}.

End Monotonic.

(** ** The clock and voltage selection *)

Module Clock.

(** Calls that reach a driver, in the order they are made. *)
Inductive clk_event : Type :=
| EvGetPll1SettingsFromContext
| EvClkGetMaxfreqOpp
| EvDtGetMaxOppFreqvolt
| EvRegulatorVoltageGet (name : string)
| EvRegulatorVoltageSet (name : string) (millivolts : Z)
| EvClkInit (freq_khz : Z).

(** The collaborators of [initialize_clock]. The two searches return
    (ret, freq_khz, voltage_mv): the status and what they leave in the
    two out-parameters. [stm32mp_get_cpu_supply_name] is [None] for a
    NULL name. *)
Record clk_env : Type := {
  stm32mp1_is_wakeup_from_standby : bool;
  stm32_get_pll1_settings_from_context : Z;
  fdt_is_pll1_predefined : bool;
  stm32mp1_clk_get_maxfreq_opp : Z * Z * Z;
  dt_get_max_opp_freqvolt : Z * Z * Z;
  dt_pmic_status : Z;
  stm32mp_get_cpu_supply_name : option string;
  stpmic1_regulator_voltage_get : string -> Z;
  stpmic1_regulator_voltage_set : string -> Z -> Z;
  stm32mp1_clk_init : Z -> Z
}.

Abbreviation trace := (list clk_event).

Definition call (ev : clk_event) : M trace unit :=
  mmodify (fun tr => tr ++ [ev]).

(** The regulator block, entered when [dt_pmic_status() > 0]. *)
Definition sync_regulator (e : clk_env) (voltage_mv : Z) : M trace unit :=
  (match stm32mp_get_cpu_supply_name e with
   | None => panic
   | Some name =>
       call (EvRegulatorVoltageGet name) ;;;
       let read_voltage := stpmic1_regulator_voltage_get e name in
       if read_voltage <? 0 then panic
       else if negb (voltage_mv =? u32 read_voltage) then
         call (EvRegulatorVoltageSet name (u16 voltage_mv)) ;;;
         if negb (stpmic1_regulator_voltage_set e name (u16 voltage_mv) =? 0)
         then panic else mret tt
       else mret tt
   end)%boot.

(** The block guarded by [(ret == 0) && !fdt_is_pll1_predefined()];
    it yields the values of [freq_khz] and [voltage_mv] on exit. *)
Definition search_opp (e : clk_env) : M trace (Z * Z) :=
  (found <-
      (if stm32mp1_is_wakeup_from_standby e
       then call EvClkGetMaxfreqOpp ;;; mret (stm32mp1_clk_get_maxfreq_opp e)
       else call EvDtGetMaxOppFreqvolt ;;; mret (dt_get_max_opp_freqvolt e)) ;;
   let '(ret, freq_khz, voltage_mv) := found in
   if negb (ret =? 0) then panic
   else
     (if 0 <? dt_pmic_status e then sync_regulator e voltage_mv else mret tt) ;;;
     mret (freq_khz, voltage_mv))%boot.

Definition initialize_clock (e : clk_env) : M trace unit :=
  (let voltage_mv := 0 in
   let freq_khz := 0 in
   ret <- (if stm32mp1_is_wakeup_from_standby e
           then call EvGetPll1SettingsFromContext ;;;
                mret (stm32_get_pll1_settings_from_context e)
           else mret 0) ;;
   point <-
      (if (ret =? 0) && negb (fdt_is_pll1_predefined e)
       then search_opp e
       else mret (freq_khz, voltage_mv)) ;;
   let '(freq_khz, voltage_mv) := point in
   call (EvClkInit freq_khz) ;;;
   if stm32mp1_clk_init e freq_khz <? 0 then panic else mret tt)%boot.

(** The events of a whole run, from an empty trace. *)
Definition run (e : clk_env) : trace := final_state (initialize_clock e []).

Definition is_opp_search (ev : clk_event) : bool :=
  match ev with
  | EvClkGetMaxfreqOpp | EvDtGetMaxOppFreqvolt => true
  | _ => false
  end.

Definition is_voltage_set (ev : clk_event) : bool :=
  match ev with
  | EvRegulatorVoltageSet _ _ => true
  | _ => false
  end.

(** The frequency the warm (standby wake-up) path hands to the clock
    driver: the point found in the restored settings when the block is
    entered, 0 when it is skipped. *)
Definition restored_freq_khz (e : clk_env) : Z :=
  if (stm32_get_pll1_settings_from_context e =? 0) && negb (fdt_is_pll1_predefined e)
  then snd (fst (stm32mp1_clk_get_maxfreq_opp e))
  else 0.

(** A board for the examples: two operating points, the regulator at
    [read_mv], every driver call succeeding. *)
Definition board (wakeup : bool) (ctx_ret : Z) (read_mv : Z) : clk_env :=
  {| stm32mp1_is_wakeup_from_standby := wakeup;
     stm32_get_pll1_settings_from_context := ctx_ret;
     fdt_is_pll1_predefined := false;
     stm32mp1_clk_get_maxfreq_opp := (0, 650000, 1200);
     dt_get_max_opp_freqvolt := (0, 1200000, 1350);
     dt_pmic_status := 1;
     stm32mp_get_cpu_supply_name := Some "buck1"%string;
     stpmic1_regulator_voltage_get := fun _ => read_mv;
     stpmic1_regulator_voltage_set := fun _ _ => 0;
     stm32mp1_clk_init := fun _ => 0 |}.

End Clock.

(** ** The post-load image resolver *)

Module PostLoad.

(** *** Image descriptors (the fields the resolver reads or writes) *)

Record image_info_t : Type := {
  h_attr : Z;
  image_base : Z;
  image_max_size : Z
}.

Record aapcs32_params_t : Type := {
  arg0 : Z;
  arg1 : Z;
  arg2 : Z;
  arg3 : Z
}.

Record entry_point_info_t : Type := {
  pc : Z;
  lr_svc : Z;
  args : aapcs32_params_t
}.

Record bl_mem_params_node_t : Type := {
  image_info : image_info_t;
  ep_info : entry_point_info_t
}.

Record dyn_cfg_dtb_info_t : Type := {
  config_addr : Z;
  config_max_size : Z
}.

(** Assignments to one field of a node. *)
Definition set_image_info (i : image_info_t) (n : bl_mem_params_node_t) :=
  {| image_info := i; ep_info := ep_info n |}.
Definition set_ep_info (p : entry_point_info_t) (n : bl_mem_params_node_t) :=
  {| image_info := image_info n; ep_info := p |}.
Definition set_h_attr (v : Z) (n : bl_mem_params_node_t) :=
  set_image_info {| h_attr := v;
                    image_base := image_base (image_info n);
                    image_max_size := image_max_size (image_info n) |} n.
Definition set_image_base (v : Z) (n : bl_mem_params_node_t) :=
  set_image_info {| h_attr := h_attr (image_info n);
                    image_base := v;
                    image_max_size := image_max_size (image_info n) |} n.
Definition set_image_max_size (v : Z) (n : bl_mem_params_node_t) :=
  set_image_info {| h_attr := h_attr (image_info n);
                    image_base := image_base (image_info n);
                    image_max_size := v |} n.
Definition set_pc (v : Z) (n : bl_mem_params_node_t) :=
  set_ep_info {| pc := v; lr_svc := lr_svc (ep_info n);
                 args := args (ep_info n) |} n.
Definition set_lr_svc (v : Z) (n : bl_mem_params_node_t) :=
  set_ep_info {| pc := pc (ep_info n); lr_svc := v;
                 args := args (ep_info n) |} n.
Definition set_args (a : aapcs32_params_t) (n : bl_mem_params_node_t) :=
  set_ep_info {| pc := pc (ep_info n); lr_svc := lr_svc (ep_info n);
                 args := a |} n.
Definition set_arg0 (v : Z) (n : bl_mem_params_node_t) :=
  set_args {| arg0 := v; arg1 := arg1 (args (ep_info n));
              arg2 := arg2 (args (ep_info n));
              arg3 := arg3 (args (ep_info n)) |} n.
Definition set_arg1 (v : Z) (n : bl_mem_params_node_t) :=
  set_args {| arg0 := arg0 (args (ep_info n)); arg1 := v;
              arg2 := arg2 (args (ep_info n));
              arg3 := arg3 (args (ep_info n)) |} n.
Definition set_arg2 (v : Z) (n : bl_mem_params_node_t) :=
  set_args {| arg0 := arg0 (args (ep_info n));
              arg1 := arg1 (args (ep_info n)); arg2 := v;
              arg3 := arg3 (args (ep_info n)) |} n.

(** *** Platform constants and build flags

    The macros of platform_def.h and of the image-identifier headers, and
    the three preprocessor conditions the function is compiled under. *)
Record platform_def : Type := {
  FW_CONFIG_ID : Z;
  BL32_IMAGE_ID : Z;
  BL32_EXTRA1_IMAGE_ID : Z;
  BL32_EXTRA2_IMAGE_ID : Z;
  BL33_IMAGE_ID : Z;
  HW_CONFIG_ID : Z;
  TOS_FW_CONFIG_ID : Z;
  IMAGE_ATTRIB_SKIP_LOADING : Z;
  EINVAL : Z;
  BKPSRAM : Z;
  STM32MP_DDR_BASE : Z;
  STM32MP_DDR_S_SIZE : Z;
  STM32MP_DDR_SHMEM_SIZE : Z;
  STM32MP_OPTEE_BASE : Z;
  STM32MP_OPTEE_SIZE : Z;
  STM32MP_BL32_BASE : Z;
  STM32MP_FW_CONFIG_BASE : Z;
  STM32MP_FW_CONFIG_MAX_SIZE : Z;
  BL2_BASE : Z;
  BL2_LIMIT : Z;
  STM32MP_USE_STM32IMAGE : bool;
  AARCH32_SP_OPTEE : bool;
  TRUSTED_BOARD_BOOT : bool
}.

(** *** Collaborators

    [dyn_cfg_dtb_getter] is what [FCONF_GET_PROPERTY(dyn_cfg, dtb, id)]
    yields once the fw_config has been populated ([None] for NULL).
    [get_optee_header_ep] returns its verdict and, when it stores through
    its second argument, the stored value. [parse_optee_header] returns
    its status and the contents it leaves in its three arguments. *)
Record plat_env : Type := {
  stm32mp1_ddr_is_restored : bool;
  dyn_cfg_dtb_getter : Z -> option dyn_cfg_dtb_info_t;
  dt_get_ddr_size : Z;
  get_optee_header_ep : entry_point_info_t -> bool * option Z;
  stm32_pm_get_optee_ep : Z;
  stm32mp1_addr_inside_backupsram : Z -> bool;
  parse_optee_header :
    entry_point_info_t -> image_info_t -> image_info_t ->
    Z * entry_point_info_t * image_info_t * image_info_t
}.

Inductive plat_event : Type :=
| EvDeleteLoadedHeader
| EvSetConfigInfo (base size id : Z)
| EvFconfPopulate (config_type : string) (base : Z)
| EvClkEnable (id : Z)
| EvParseOpteeHeader
| EvContextSaveBl2Param
| EvFlushDcacheRange (base size : Z).

(** The global descriptor table, keyed by image identifier, and the
    trace of effects on the outside. *)
Record plat_state : Type := {
  bl_mem_params_desc : gmap Z bl_mem_params_node_t;
  effects : list plat_event
}.

Definition call (ev : plat_event) : M plat_state unit :=
  mmodify (fun s => {| bl_mem_params_desc := bl_mem_params_desc s;
                       effects := effects s ++ [ev] |}).

(** A pointer to a node is the key of the node, [None] for NULL. *)
Definition get_bl_mem_params_node (image_id : Z) : M plat_state (option Z) :=
  fun s => match bl_mem_params_desc s !! image_id with
           | Some _ => Done (Some image_id) s
           | None => Done None s
           end.

Definition load (p : option Z) : M plat_state bl_mem_params_node_t :=
  fun s => match p with
           | None => Halt NullDeref s
           | Some k => match bl_mem_params_desc s !! k with
                       | Some n => Done n s
                       | None => Halt NullDeref s
                       end
           end.

Definition store (p : option Z) (f : bl_mem_params_node_t -> bl_mem_params_node_t)
  : M plat_state unit :=
  (n <- load p ;;
   match p with
   | None => mret tt
   | Some k =>
       mmodify (fun s => {| bl_mem_params_desc := <[k := f n]> (bl_mem_params_desc s);
                            effects := effects s |})
   end)%boot.

Definition is_null (p : option Z) : bool :=
  match p with
  | None => true
  | Some _ => false
  end.

Section Resolver.

Context (pd : platform_def) (e : plat_env).

(** [attr &= ~IMAGE_ATTRIB_SKIP_LOADING] on a 32-bit word. *)
Definition clear_skip_loading (n : bl_mem_params_node_t) : bl_mem_params_node_t :=
  set_h_attr (Z.land (h_attr (image_info n))
                     (u32 (Z.lnot (IMAGE_ATTRIB_SKIP_LOADING pd)))) n.

(** [set_mem_params_info], compiled when [AARCH32_SP_OPTEE] and
    [STM32MP_USE_STM32IMAGE] are both set. [ep_info] points into the
    node [bl]; [unpaged] and [paged] into the two sub-image nodes. *)
Definition set_mem_params_info (bl unpaged paged : option Z) : M plat_state unit :=
  (n <- load bl ;;
   let bl32_ep := 0 in
   let '(valid, stored) := get_optee_header_ep e (ep_info n) in
   let bl32_ep := default bl32_ep stored in
   (if valid && (STM32MP_OPTEE_BASE pd <=? bl32_ep)
             && (bl32_ep <? u32 (STM32MP_OPTEE_BASE pd + STM32MP_OPTEE_SIZE pd))
    then
      assert ((BL2_LIMIT pd <=? STM32MP_OPTEE_BASE pd)
              || (u32 (STM32MP_OPTEE_BASE pd + STM32MP_OPTEE_SIZE pd) <=? BL2_BASE pd)) ;;;
      store unpaged (set_image_base (STM32MP_OPTEE_BASE pd)) ;;;
      store unpaged (set_image_max_size (STM32MP_OPTEE_SIZE pd))
    else
      store unpaged (set_image_base
                       (u32 (STM32MP_DDR_BASE pd + dt_get_ddr_size e
                             - STM32MP_DDR_S_SIZE pd - STM32MP_DDR_SHMEM_SIZE pd))) ;;;
      store unpaged (set_image_max_size (STM32MP_DDR_S_SIZE pd))) ;;;
   store paged (set_image_base
                  (u32 (STM32MP_DDR_BASE pd + dt_get_ddr_size e
                        - STM32MP_DDR_S_SIZE pd - STM32MP_DDR_SHMEM_SIZE pd))) ;;;
   store paged (set_image_max_size (STM32MP_DDR_S_SIZE pd)))%boot.

(** The identifiers the fw_config loop walks. *)
Definition image_ids : list Z :=
  [BL32_IMAGE_ID pd; BL33_IMAGE_ID pd; HW_CONFIG_ID pd; TOS_FW_CONFIG_ID pd].

(** One turn of the loop for the identifier [id]. [Some err] is the
    [return err] of the inner switch; [None] lets the loop go on (the
    [continue] and the three [break]s). *)
Definition fw_config_image (wakeup_ddr_sr : bool) (id : Z) : M plat_state (option Z) :=
  (bl_mem_params <- get_bl_mem_params_node id ;;
   assert (negb (is_null bl_mem_params)) ;;;
   match dyn_cfg_dtb_getter e id with
   | None => mret None
   | Some config_info =>
       store bl_mem_params (set_image_base (config_addr config_info)) ;;;
       store bl_mem_params (set_image_max_size (config_max_size config_info)) ;;;
       (if negb (wakeup_ddr_sr && (STM32MP_DDR_BASE pd <=? config_addr config_info))
        then store bl_mem_params clear_skip_loading
        else mret tt) ;;;
       if id =? BL32_IMAGE_ID pd then
         store bl_mem_params (set_pc (config_addr config_info)) ;;;
         pager_mem_params <- get_bl_mem_params_node (BL32_EXTRA1_IMAGE_ID pd) ;;
         store pager_mem_params (set_image_base (config_addr config_info)) ;;;
         store pager_mem_params (set_image_max_size (config_max_size config_info)) ;;;
         paged_mem_params <- get_bl_mem_params_node (BL32_EXTRA2_IMAGE_ID pd) ;;
         store paged_mem_params
               (set_image_base
                  (u32 (STM32MP_DDR_BASE pd
                        + u32 (dt_get_ddr_size e - STM32MP_DDR_S_SIZE pd)))) ;;;
         store paged_mem_params (set_image_max_size (STM32MP_DDR_S_SIZE pd)) ;;;
         mret None
       else if id =? BL33_IMAGE_ID pd then
         (if wakeup_ddr_sr
          then store bl_mem_params (set_pc 0)
          else store bl_mem_params (set_pc (config_addr config_info))) ;;;
         mret None
       else if (id =? HW_CONFIG_ID pd) || (id =? TOS_FW_CONFIG_ID pd) then
         mret None
       else
         mret (Some (- EINVAL pd))
   end)%boot.

Fixpoint fw_config_loop (wakeup_ddr_sr : bool) (ids : list Z) : M plat_state (option Z) :=
  match ids with
  | [] => mret None
  | id :: rest =>
      (r <- fw_config_image wakeup_ddr_sr id ;;
       match r with
       | Some err => mret (Some err)
       | None => fw_config_loop wakeup_ddr_sr rest
       end)%boot
  end.

(** [case FW_CONFIG_ID], over the identifiers [ids]; [err] is the
    value of the local when the case is entered. *)
Definition fw_config_case (wakeup_ddr_sr : bool) (ids : list Z) (err : Z) : M plat_state Z :=
  (call (EvSetConfigInfo (STM32MP_FW_CONFIG_BASE pd)
                         (STM32MP_FW_CONFIG_MAX_SIZE pd) (FW_CONFIG_ID pd)) ;;;
   call (EvFconfPopulate "FW_CONFIG" (STM32MP_FW_CONFIG_BASE pd)) ;;;
   r <- fw_config_loop wakeup_ddr_sr ids ;;
   match r with
   | Some returned_err => mret returned_err
   | None => mret err
   end)%boot.

(** The end of [case BL32_IMAGE_ID], reached by both arms. *)
Definition bl32_save_context (bl_mem_params : option Z) (err : Z) : M plat_state Z :=
  (n <- load bl_mem_params ;;
   (if STM32MP_DDR_BASE pd <=? pc (ep_info n)
    then call EvContextSaveBl2Param else mret tt) ;;;
   mret err)%boot.

(** [case BL32_IMAGE_ID], when its body is compiled in. *)
Definition bl32_case (wakeup_ddr_sr : bool) (bl_mem_params : option Z) (err : Z)
  : M plat_state Z :=
  (n <- load bl_mem_params ;;
   store bl_mem_params (set_pc (image_base (image_info n))) ;;;
   n <- load bl_mem_params ;;
   let '(valid, stored) := get_optee_header_ep e (ep_info n) in
   match stored with
   | Some v => store bl_mem_params (set_pc v)
   | None => mret tt
   end ;;;
   if valid then
     if negb (STM32MP_USE_STM32IMAGE pd) && wakeup_ddr_sr then
       store bl_mem_params (set_pc (stm32_pm_get_optee_ep e)) ;;;
       n <- load bl_mem_params ;;
       (if stm32mp1_addr_inside_backupsram e (pc (ep_info n))
        then call (EvClkEnable (BKPSRAM pd)) else mret tt) ;;;
       mret err
     else
       pager_mem_params <- get_bl_mem_params_node (BL32_EXTRA1_IMAGE_ID pd) ;;
       paged_mem_params <- get_bl_mem_params_node (BL32_EXTRA2_IMAGE_ID pd) ;;
       assert (negb (is_null pager_mem_params) && negb (is_null paged_mem_params)) ;;;
       (if STM32MP_USE_STM32IMAGE pd
        then set_mem_params_info bl_mem_params pager_mem_params paged_mem_params
        else mret tt) ;;;
       n <- load bl_mem_params ;;
       pager <- load pager_mem_params ;;
       paged <- load paged_mem_params ;;
       let '(err, ep', pager', paged') :=
         parse_optee_header e (ep_info n) (image_info pager) (image_info paged) in
       call EvParseOpteeHeader ;;;
       store bl_mem_params (set_ep_info ep') ;;;
       store pager_mem_params (set_image_info pager') ;;;
       store paged_mem_params (set_image_info paged') ;;;
       if negb (err =? 0) then panic
       else
         paged <- load paged_mem_params ;;
         store bl_mem_params (set_arg0 (image_base (image_info paged))) ;;;
         store bl_mem_params (set_arg1 0) ;;;
         store bl_mem_params (set_arg2 0) ;;;
         bl32_save_context bl_mem_params err
   else
     (if STM32MP_USE_STM32IMAGE pd
      then store bl_mem_params (set_pc (STM32MP_BL32_BASE pd))
      else
        tos_fw_mem_params <- get_bl_mem_params_node (TOS_FW_CONFIG_ID pd) ;;
        tos <- load tos_fw_mem_params ;;
        n <- load bl_mem_params ;;
        store bl_mem_params
              (set_image_max_size
                 (u32 (image_max_size (image_info n)
                       + image_max_size (image_info tos))))) ;;;
     store bl_mem_params (set_arg0 0) ;;;
     bl32_save_context bl_mem_params err)%boot.

Definition bl33_case (bl_mem_params : option Z) (err : Z) : M plat_state Z :=
  (bl32_mem_params <- get_bl_mem_params_node (BL32_IMAGE_ID pd) ;;
   assert (negb (is_null bl32_mem_params)) ;;;
   n <- load bl_mem_params ;;
   store bl32_mem_params (set_lr_svc (pc (ep_info n))) ;;;
   n <- load bl_mem_params ;;
   call (EvFlushDcacheRange (image_base (image_info n))
                            (image_max_size (image_info n))) ;;;
   mret err)%boot.

Definition bl2_plat_handle_post_image_load (image_id : Z) : M plat_state Z :=
  (let err := 0 in
   bl_mem_params <- get_bl_mem_params_node image_id ;;
   let wakeup_ddr_sr := stm32mp1_ddr_is_restored e in
   assert (negb (is_null bl_mem_params)) ;;;
   (if TRUSTED_BOARD_BOOT pd && STM32MP_USE_STM32IMAGE pd
    then call EvDeleteLoadedHeader else mret tt) ;;;
   if negb (STM32MP_USE_STM32IMAGE pd) && (image_id =? FW_CONFIG_ID pd) then
     fw_config_case wakeup_ddr_sr image_ids err
   else if image_id =? BL32_IMAGE_ID pd then
     if AARCH32_SP_OPTEE pd || negb (STM32MP_USE_STM32IMAGE pd)
     then bl32_case wakeup_ddr_sr bl_mem_params err
     else mret err
   else if image_id =? BL33_IMAGE_ID pd then
     bl33_case bl_mem_params err
   else
     mret err)%boot.

(** What one turn of the fw_config loop makes of the node of its own
    identifier: the descriptor after the stores of the turn. *)
Definition fw_config_node_update (wakeup_ddr_sr : bool) (id : Z)
           (n : bl_mem_params_node_t) : bl_mem_params_node_t :=
  match dyn_cfg_dtb_getter e id with
  | None => n
  | Some config_info =>
      let n1 := set_image_max_size (config_max_size config_info)
                  (set_image_base (config_addr config_info) n) in
      let n2 := if negb (wakeup_ddr_sr
                         && (STM32MP_DDR_BASE pd <=? config_addr config_info))
                then clear_skip_loading n1 else n1 in
      if id =? BL32_IMAGE_ID pd then set_pc (config_addr config_info) n2
      else if id =? BL33_IMAGE_ID pd then
             set_pc (if wakeup_ddr_sr then 0 else config_addr config_info) n2
      else n2
  end.

(** The identifiers of the descriptor table are pairwise distinct. *)
Definition ids_distinct : Prop :=
  NoDup [FW_CONFIG_ID pd; BL32_IMAGE_ID pd; BL32_EXTRA1_IMAGE_ID pd;
         BL32_EXTRA2_IMAGE_ID pd; BL33_IMAGE_ID pd; HW_CONFIG_ID pd;
         TOS_FW_CONFIG_ID pd].

(** The table holds a node for every image the resolver looks up. *)
Definition table_complete (s : plat_state) : Prop :=
  forall k, k ∈ [BL32_IMAGE_ID pd; BL32_EXTRA1_IMAGE_ID pd;
                 BL32_EXTRA2_IMAGE_ID pd; BL33_IMAGE_ID pd; HW_CONFIG_ID pd;
                 TOS_FW_CONFIG_ID pd] ->
            is_Some (bl_mem_params_desc s !! k).

End Resolver.

(** The state after a store of [n] at the node [k]. *)
Definition upd (k : Z) (n : bl_mem_params_node_t) (s : plat_state) : plat_state :=
  {| bl_mem_params_desc := <[k := n]> (bl_mem_params_desc s);
     effects := effects s |}.

(** *** A build for the examples

    The FIP build (no STM32IMAGE) of an STM32MP157 board with 512 MiB of
    DDR; the identifiers are those of the TBBR image list. *)
Definition fip_build : platform_def :=
  {| FW_CONFIG_ID := 31;
     BL32_IMAGE_ID := 4;
     BL32_EXTRA1_IMAGE_ID := 21;
     BL32_EXTRA2_IMAGE_ID := 22;
     BL33_IMAGE_ID := 5;
     HW_CONFIG_ID := 23;
     TOS_FW_CONFIG_ID := 26;
     IMAGE_ATTRIB_SKIP_LOADING := 2;
     EINVAL := 22;
     BKPSRAM := 48;
     STM32MP_DDR_BASE := 0xC0000000;
     STM32MP_DDR_S_SIZE := 0x01E00000;
     STM32MP_DDR_SHMEM_SIZE := 0x00200000;
     STM32MP_OPTEE_BASE := 0x2FFC0000;
     STM32MP_OPTEE_SIZE := 0x00040000;
     STM32MP_BL32_BASE := 0x2FFC0000;
     STM32MP_FW_CONFIG_BASE := 0x2FFD0000;
     STM32MP_FW_CONFIG_MAX_SIZE := 0x1000;
     BL2_BASE := 0x2FFE0000;
     BL2_LIMIT := 0x30000000;
     STM32MP_USE_STM32IMAGE := false;
     AARCH32_SP_OPTEE := true;
     TRUSTED_BOARD_BOOT := false |}.

Definition node (attr base size : Z) : bl_mem_params_node_t :=
  {| image_info := {| h_attr := attr; image_base := base; image_max_size := size |};
     ep_info := {| pc := 0; lr_svc := 0;
                   args := {| arg0 := 7; arg1 := 7; arg2 := 7; arg3 := 7 |} |} |}.

(** Every image is marked skip-loading, with a staging base and size;
    99 is an image outside the TBBR list. *)
Definition boot_table (bl32_size tos_size : Z) : plat_state :=
  {| bl_mem_params_desc :=
       <[31 := node 2 0x2FFD0000 0x1000]>
       (<[4 := node 2 0x2FFC0000 bl32_size]>
       (<[21 := node 2 0 0]>
       (<[22 := node 2 0 0]>
       (<[5 := node 2 0xC0100000 0x100000]>
       (<[23 := node 2 0xC0200000 0x20000]>
       (<[26 := node 2 0x2FFCF000 tos_size]>
       (<[99 := node 2 0 0]> ∅)))))));
     effects := [] |}.

(** The fw_config places BL32 in SYSRAM, BL33 and the hardware config in
    DDR, and says nothing of the secure-OS config; an OP-TEE header is
    found when [optee] is set; the saved OP-TEE entry is [saved_ep] and
    the backup SRAM is [0x40000000, 0x40010000). *)
Definition boot_env (restored optee : bool) (saved_ep : Z) : plat_env :=
  {| stm32mp1_ddr_is_restored := restored;
     dyn_cfg_dtb_getter := fun id =>
       if id =? 4 then Some {| config_addr := 0x2FFC0000; config_max_size := 0x20000 |}
       else if id =? 5 then Some {| config_addr := 0xC0100000; config_max_size := 0x100000 |}
       else if id =? 23 then Some {| config_addr := 0xC0200000; config_max_size := 0x20000 |}
       else if id =? 99 then Some {| config_addr := 0xC0400000; config_max_size := 0x1000 |}
       else None;
     dt_get_ddr_size := 0x20000000;
     get_optee_header_ep := fun ep => (optee, if optee then Some (pc ep + 0x1C) else None);
     stm32_pm_get_optee_ep := saved_ep;
     stm32mp1_addr_inside_backupsram := fun a => (0x40000000 <=? a) && (a <? 0x40010000);
     parse_optee_header := fun ep pager paged => (0, ep, pager, paged) |}.

End PostLoad.

(** *** Derived views of the resolver, used to state its properties *)

Module PostLoadViews.
Import PostLoad.

Section Views.

Context (pd : platform_def) (e : plat_env).

(** The entry point of BL32 once [get_optee_header_ep] has run on the
    node [n]: what the call stored, or else the image base. *)
Definition header_pc (n : bl_mem_params_node_t) : Z :=
  match snd (get_optee_header_ep e (ep_info (set_pc (image_base (image_info n)) n))) with
  | Some v => v
  | None => image_base (image_info n)
  end.

Definition header_valid (n : bl_mem_params_node_t) : bool :=
  fst (get_optee_header_ep e (ep_info (set_pc (image_base (image_info n)) n))).

(** What the BL32 turn of the fw_config loop makes of the two OP-TEE
    sub-image nodes. *)
Definition pager_node_update (n : bl_mem_params_node_t) : bl_mem_params_node_t :=
  match dyn_cfg_dtb_getter e (BL32_IMAGE_ID pd) with
  | None => n
  | Some config_info =>
      set_image_max_size (config_max_size config_info)
        (set_image_base (config_addr config_info) n)
  end.

Definition paged_node_update (n : bl_mem_params_node_t) : bl_mem_params_node_t :=
  match dyn_cfg_dtb_getter e (BL32_IMAGE_ID pd) with
  | None => n
  | Some _ =>
      set_image_max_size (STM32MP_DDR_S_SIZE pd)
        (set_image_base
           (u32 (STM32MP_DDR_BASE pd + u32 (dt_get_ddr_size e - STM32MP_DDR_S_SIZE pd))) n)
  end.

(** The state with the two calls that open [case FW_CONFIG_ID] logged. *)
Definition fw_config_entered (s : plat_state) : plat_state :=
  {| bl_mem_params_desc := bl_mem_params_desc s;
     effects := (effects s
                 ++ [EvSetConfigInfo (STM32MP_FW_CONFIG_BASE pd)
                                     (STM32MP_FW_CONFIG_MAX_SIZE pd) (FW_CONFIG_ID pd)])
                ++ [EvFconfPopulate "FW_CONFIG" (STM32MP_FW_CONFIG_BASE pd)] |}.

(** The top of DDR minus the secure and shared-memory areas, where
    [set_mem_params_info] puts the paged part. *)
Definition ddr_secure_base : Z :=
  u32 (STM32MP_DDR_BASE pd + dt_get_ddr_size e
       - STM32MP_DDR_S_SIZE pd - STM32MP_DDR_SHMEM_SIZE pd).

End Views.

(** The STM32IMAGE build with OP-TEE, for the examples. *)
Definition stm32image_build (optee : bool) : platform_def :=
  {| FW_CONFIG_ID := 31;
     BL32_IMAGE_ID := 4;
     BL32_EXTRA1_IMAGE_ID := 21;
     BL32_EXTRA2_IMAGE_ID := 22;
     BL33_IMAGE_ID := 5;
     HW_CONFIG_ID := 23;
     TOS_FW_CONFIG_ID := 26;
     IMAGE_ATTRIB_SKIP_LOADING := 2;
     EINVAL := 22;
     BKPSRAM := 48;
     STM32MP_DDR_BASE := 0xC0000000;
     STM32MP_DDR_S_SIZE := 0x01E00000;
     STM32MP_DDR_SHMEM_SIZE := 0x00200000;
     STM32MP_OPTEE_BASE := 0x2FFC0000;
     STM32MP_OPTEE_SIZE := 0x00020000;
     STM32MP_BL32_BASE := 0x2FFC0000;
     STM32MP_FW_CONFIG_BASE := 0x2FFD0000;
     STM32MP_FW_CONFIG_MAX_SIZE := 0x1000;
     BL2_BASE := 0x2FFE0000;
     BL2_LIMIT := 0x30000000;
     STM32MP_USE_STM32IMAGE := true;
     AARCH32_SP_OPTEE := optee;
     TRUSTED_BOARD_BOOT := true |}.

(** An environment whose header parser reports [err] and places the
    pager at 0xDE000000 and the paged part at 0xDE200000. *)
Definition optee_env (restored : bool) (err : Z) : plat_env :=
  {| stm32mp1_ddr_is_restored := restored;
     dyn_cfg_dtb_getter := fun _ => None;
     dt_get_ddr_size := 0x20000000;
     get_optee_header_ep := fun ep => (true, Some 0xDE000000);
     stm32_pm_get_optee_ep := 0xDE000040;
     stm32mp1_addr_inside_backupsram := fun a => (0x40000000 <=? a) && (a <? 0x40010000);
     parse_optee_header := fun ep pager paged =>
       (err, ep,
        {| h_attr := h_attr pager; image_base := 0xDE000000; image_max_size := 0x200000 |},
        {| h_attr := h_attr paged; image_base := 0xDE200000; image_max_size := 0x100000 |}) |}.

End PostLoadViews.

(** ** The reset reason report *)

Module ResetReason.

(** The flag masks of [RCC_MP_RSTSCLRR]. *)
Record rcc_flags : Type := {
  RCC_MP_RSTSCLRR_PADRSTF : Z;
  RCC_MP_RSTSCLRR_STDBYRSTF : Z;
  RCC_MP_RSTSCLRR_CSTDBYRSTF : Z;
  RCC_MP_RSTSCLRR_PORRSTF : Z;
  RCC_MP_RSTSCLRR_BORRSTF : Z;
  RCC_MP_RSTSCLRR_MCSYSRSTF : Z;
  RCC_MP_RSTSCLRR_MPSYSRSTF : Z;
  RCC_MP_RSTSCLRR_HCSSRSTF : Z;
  RCC_MP_RSTSCLRR_IWDG1RSTF : Z;
  RCC_MP_RSTSCLRR_IWDG2RSTF : Z;
  RCC_MP_RSTSCLRR_MPUP0RSTF : Z;
  RCC_MP_RSTSCLRR_MPUP1RSTF : Z;
  RCC_MP_RSTSCLRR_VCORERSTF : Z
}.

(** The lines the function can log. *)
Inductive log_line : Type :=
| WarnUnknown
| InfoResetReason (rstsr : Z)
| InfoStandbyExit
| InfoCStandbyExit
| InfoPowerOn
| InfoBrownout
| InfoMcuSystemReset
| InfoMcuLocalReset
| InfoMpuSystemReset
| InfoHseFailure
| InfoIwdg1
| InfoIwdg2
| InfoMpuProcessor0
| InfoMpuProcessor1
| InfoPadReset
| InfoVddCoreFailure
| ErrorUnidentified.

(** [(rstsr & flag) != 0U] *)
Definition flag_set (rstsr flag : Z) : bool := negb (Z.land rstsr flag =? 0).

(** [rstsr] is the value read from [RCC_MP_RSTSCLRR]. *)
Definition print_reset_reason (f : rcc_flags) (rstsr : Z) : list log_line :=
  if rstsr =? 0 then [WarnUnknown]
  else
    InfoResetReason rstsr ::
    (if negb (flag_set rstsr (RCC_MP_RSTSCLRR_PADRSTF f))
        && flag_set rstsr (RCC_MP_RSTSCLRR_STDBYRSTF f)
     then [InfoStandbyExit]
     else if negb (flag_set rstsr (RCC_MP_RSTSCLRR_PADRSTF f))
             && flag_set rstsr (RCC_MP_RSTSCLRR_CSTDBYRSTF f)
     then [InfoCStandbyExit]
     else if flag_set rstsr (RCC_MP_RSTSCLRR_PORRSTF f) then [InfoPowerOn]
     else if flag_set rstsr (RCC_MP_RSTSCLRR_BORRSTF f) then [InfoBrownout]
     else if flag_set rstsr (RCC_MP_RSTSCLRR_MCSYSRSTF f) then
            (if flag_set rstsr (RCC_MP_RSTSCLRR_PADRSTF f)
             then [InfoMcuSystemReset] else [InfoMcuLocalReset])
     else if flag_set rstsr (RCC_MP_RSTSCLRR_MPSYSRSTF f) then [InfoMpuSystemReset]
     else if flag_set rstsr (RCC_MP_RSTSCLRR_HCSSRSTF f) then [InfoHseFailure]
     else if flag_set rstsr (RCC_MP_RSTSCLRR_IWDG1RSTF f) then [InfoIwdg1]
     else if flag_set rstsr (RCC_MP_RSTSCLRR_IWDG2RSTF f) then [InfoIwdg2]
     else if flag_set rstsr (RCC_MP_RSTSCLRR_MPUP0RSTF f) then [InfoMpuProcessor0]
     else if flag_set rstsr (RCC_MP_RSTSCLRR_MPUP1RSTF f) then [InfoMpuProcessor1]
     else if flag_set rstsr (RCC_MP_RSTSCLRR_PADRSTF f) then [InfoPadReset]
     else if flag_set rstsr (RCC_MP_RSTSCLRR_VCORERSTF f) then [InfoVddCoreFailure]
     else [ErrorUnidentified]).

(** One bit per flag, for the examples. *)
Definition one_bit_flags : rcc_flags :=
  {| RCC_MP_RSTSCLRR_PORRSTF := 0x1;
     RCC_MP_RSTSCLRR_BORRSTF := 0x2;
     RCC_MP_RSTSCLRR_PADRSTF := 0x4;
     RCC_MP_RSTSCLRR_HCSSRSTF := 0x8;
     RCC_MP_RSTSCLRR_VCORERSTF := 0x10;
     RCC_MP_RSTSCLRR_MPSYSRSTF := 0x40;
     RCC_MP_RSTSCLRR_MCSYSRSTF := 0x80;
     RCC_MP_RSTSCLRR_IWDG1RSTF := 0x100;
     RCC_MP_RSTSCLRR_IWDG2RSTF := 0x200;
     RCC_MP_RSTSCLRR_STDBYRSTF := 0x800;
     RCC_MP_RSTSCLRR_CSTDBYRSTF := 0x1000;
     RCC_MP_RSTSCLRR_MPUP0RSTF := 0x2000;
     RCC_MP_RSTSCLRR_MPUP1RSTF := 0x4000 |}.

End ResetReason.

(** ** DDR bring-up: [bl2_platform_setup] and [ddr_mapping_and_security] *)

Module PlatformSetup.

Record setup_def : Type := {
  STM32MP_DDR_BASE : Z;
  EINVAL : Z;
  BOOT_API_CORE1_MAGIC_NUMBER_TAMP_BCK_REG_IDX : Z;
  BOOT_API_CORE1_BRANCH_ADDRESS_TAMP_BCK_REG_IDX : Z;
  (** [MT_MEMORY | MT_RW | MT_SECURE] *)
  MT_MEMORY_RW_SECURE : Z
}.

Record setup_env : Type := {
  stm32mp1_ddr_probe : Z;
  stm32mp1_ddr_is_restored : bool;
  tamp_bkpr : Z -> Z;
  dt_pmic_status : Z;
  dt_get_ddr_size : Z;
  mmap_add_dynamic_region : Z -> Z -> Z -> Z -> Z
}.

Inductive setup_event : Type :=
| EvDdrProbe
| EvMmioWrite32 (addr value : Z)
| EvCleanContext
| EvConfigurePmic
| EvMmapAddDynamicRegion (base_pa base_va size attr : Z).

Abbreviation log := (list setup_event).

Definition call (ev : setup_event) : M log unit :=
  mmodify (fun tr => tr ++ [ev]).

Section Setup.

Context (d : setup_def) (e : setup_env).

Definition ddr_mapping_and_security : M log Z :=
  (let ddr_size := dt_get_ddr_size e in
   if ddr_size =? 0 then mret (- EINVAL d)
   else
     call (EvMmapAddDynamicRegion (STM32MP_DDR_BASE d) (STM32MP_DDR_BASE d)
                                  ddr_size (MT_MEMORY_RW_SECURE d)) ;;;
     mret (mmap_add_dynamic_region e (STM32MP_DDR_BASE d) (STM32MP_DDR_BASE d)
                                   ddr_size (MT_MEMORY_RW_SECURE d)))%boot.

Definition bl2_platform_setup : M log unit :=
  (call EvDdrProbe ;;;
   let ret := stm32mp1_ddr_probe e in
   if ret <? 0 then panic
   else
     (if negb (stm32mp1_ddr_is_restored e) then
        let bkpr_core1_magic :=
          tamp_bkpr e (BOOT_API_CORE1_MAGIC_NUMBER_TAMP_BCK_REG_IDX d) in
        let bkpr_core1_addr :=
          tamp_bkpr e (BOOT_API_CORE1_BRANCH_ADDRESS_TAMP_BCK_REG_IDX d) in
        call (EvMmioWrite32 bkpr_core1_addr 0) ;;;
        call (EvMmioWrite32 bkpr_core1_magic 0) ;;;
        call EvCleanContext ;;;
        if 0 <? dt_pmic_status e then call EvConfigurePmic else mret tt
      else mret tt) ;;;
     ret <- ddr_mapping_and_security ;;
     if ret <? 0 then panic else mret tt)%boot.

Definition run : log := final_state (bl2_platform_setup []).

End Setup.

Definition is_backup_write (ev : setup_event) : bool :=
  match ev with
  | EvMmioWrite32 _ _ | EvCleanContext | EvConfigurePmic => true
  | _ => false
  end.

Definition is_mmap (ev : setup_event) : bool :=
  match ev with
  | EvMmapAddDynamicRegion _ _ _ _ => true
  | _ => false
  end.

(** A board for the examples. *)
Definition mp157 : setup_def :=
  {| STM32MP_DDR_BASE := 0xC0000000;
     EINVAL := 22;
     BOOT_API_CORE1_MAGIC_NUMBER_TAMP_BCK_REG_IDX := 4;
     BOOT_API_CORE1_BRANCH_ADDRESS_TAMP_BCK_REG_IDX := 5;
     MT_MEMORY_RW_SECURE := 10 |}.

Definition ddr_env (probe : Z) (restored : bool) (size : Z) : setup_env :=
  {| stm32mp1_ddr_probe := probe;
     stm32mp1_ddr_is_restored := restored;
     tamp_bkpr := fun idx => 0x5C00A100 + 4 * idx;
     dt_pmic_status := 1;
     dt_get_ddr_size := size;
     mmap_add_dynamic_region := fun _ _ _ _ => 0 |}.

End PlatformSetup.

(** * Properties *)

(** ** Unsigned arithmetic *)

Lemma u32_id (x : Z) : 0 <= x < 2 ^ 32 -> u32 x = x.
Proof. intros H. unfold u32. apply Z.mod_small. exact H. Qed.

Lemma BIT_pow2 (nr : Z) : 0 <= nr < 32 -> BIT nr = 2 ^ nr.
Proof.
  intros H. unfold BIT. rewrite Z.shiftl_1_l. apply u32_id.
  split; [apply Z.pow_nonneg; lia | apply Z.pow_lt_mono_r; lia].
Qed.

Lemma pow2_lt_32 (nr : Z) : 0 <= nr < 32 -> 0 < 2 ^ nr < 2 ^ 32.
Proof.
  intros H. split; [apply Z.pow_pos_nonneg; lia | apply Z.pow_lt_mono_r; lia].
Qed.

Lemma lor_ones_bounds (a n : Z) :
  0 <= a -> 0 <= n -> a <= Z.lor a (Z.ones n) /\ Z.ones n <= Z.lor a (Z.ones n).
Proof.
  intros Ha Hn.
  pose proof (Z.add_lor_land a (Z.ones n)) as Hsum.
  rewrite Z.land_ones in Hsum by exact Hn.
  assert (0 < 2 ^ n) as Hpow by (apply Z.pow_pos_nonneg; lia).
  pose proof (Z.mod_pos_bound a (2 ^ n) Hpow) as Hmod.
  pose proof (Z.mod_le a (2 ^ n) Ha Hpow) as Hle.
  rewrite Z.ones_equiv in *. lia.
Qed.

Lemma lor_ones_absorb (a n : Z) :
  0 <= a < 2 ^ n -> 0 <= n -> Z.lor a (Z.ones n) = Z.ones n.
Proof.
  intros Ha Hn.
  pose proof (Z.add_lor_land a (Z.ones n)) as Hsum.
  rewrite Z.land_ones in Hsum by exact Hn.
  rewrite Z.mod_small in Hsum by exact Ha. lia.
Qed.

Lemma land_clear_mask (a m : Z) : Z.land (Z.land a (u32 (Z.lnot m))) m = 0.
Proof.
  unfold u32. rewrite <- Z.land_ones by lia.
  rewrite <- !Z.land_assoc.
  rewrite (Z.land_comm (Z.ones 32) m), (Z.land_assoc (Z.lnot m) m).
  rewrite (Z.land_comm (Z.lnot m) m), Z.land_lnot_diag.
  rewrite Z.land_0_l. apply Z.land_0_r.
Qed.

(** ** The anti-rollback counter *)

Module MonotonicFacts.
Import Monotonic.

(** What the update writes, when it writes: the thermometer code of the
    declared version. *)
Lemma new_version_ones (V : Z) : 0 <= V < 32 -> u32 (BIT V - 1) = Z.ones V.
Proof.
  intros HV. rewrite BIT_pow2 by exact HV.
  pose proof (pow2_lt_32 V HV). rewrite u32_id by lia.
  rewrite Z.ones_equiv. lia.
Qed.

(** A run that returns leaves the counter at or above [2^V - 1], and
    never below its value on entry. *)
Lemma update_reaches_bound (V : Z) (e : otp_env) (s s' : otp_state) :
  0 <= V < 32 -> 0 <= fuse s < 2 ^ 32 ->
  update_monotonic_counter V e s = Done tt s' ->
  2 ^ V - 1 <= fuse s' /\ fuse s <= fuse s'.
Proof.
  intros HV Hs. unfold update_monotonic_counter, mbind, mget, bsec_program_otp, panic, mret.
  destruct (stm32_get_otp_index e) as [otp|]; [|discriminate].
  destruct (stm32_get_otp_value_ok e); simpl; [|discriminate].
  rewrite new_version_ones by exact HV.
  pose proof (pow2_lt_32 V HV) as Hpow.
  destruct (u32 (fuse s + 1) <? BIT V) eqn:Hcmp.
  - destruct (bsec_program_otp_ok e); simpl; [|discriminate].
    intros [= <-]. simpl.
    pose proof (lor_ones_bounds (fuse s) V) as Hb.
    pose proof (Z.ones_equiv V) as Hones. lia.
  - intros [= <-]. apply Z.ltb_ge in Hcmp.
    rewrite BIT_pow2 in Hcmp by exact HV.
    unfold u32 in Hcmp.
    destruct (Z.eq_dec (fuse s) (2 ^ 32 - 1)) as [Heq|Hne].
    + lia.
    + rewrite Z.mod_small in Hcmp by lia. lia.
Qed.

(** Below the top of the word, a counter that already meets the bound
    is left alone: nothing is programmed. *)
Lemma update_silent_below_top (V : Z) (e : otp_env) (s : otp_state) :
  0 <= V < 32 -> 0 <= fuse s < 2 ^ 32 - 1 -> 2 ^ V <= fuse s + 1 ->
  final_state (update_monotonic_counter V e s) = s.
Proof.
  intros HV Hs Hbound. unfold update_monotonic_counter, mbind, mget, panic, mret.
  destruct (stm32_get_otp_index e) as [otp|]; [|reflexivity].
  destruct (stm32_get_otp_value_ok e); simpl; [|reflexivity].
  rewrite BIT_pow2 by exact HV. rewrite u32_id by lia.
  destruct (fuse s + 1 <? 2 ^ V) eqn:Hcmp; [|reflexivity].
  apply Z.ltb_lt in Hcmp. lia.
Qed.

(** Below the top of the word a returning run either finds the bound
    met and changes nothing, or finds the counter stale and programs
    the thermometer code, which the word then holds. *)
Lemma update_below_top (V : Z) (e : otp_env) (s s' : otp_state) :
  0 <= V < 32 -> 0 <= fuse s < 2 ^ 32 - 1 ->
  update_monotonic_counter V e s = Done tt s' ->
  (2 ^ V <= fuse s + 1 /\ s' = s)
  \/ (fuse s + 1 < 2 ^ V /\ fuse s' = 2 ^ V - 1
      /\ exists otp, programmed s' = programmed s ++ [(2 ^ V - 1, otp)]).
Proof.
  intros HV Hs. unfold update_monotonic_counter, mbind, mget, bsec_program_otp, panic, mret.
  destruct (stm32_get_otp_index e) as [otp|]; [|discriminate].
  destruct (stm32_get_otp_value_ok e); simpl; [|discriminate].
  rewrite new_version_ones by exact HV.
  rewrite BIT_pow2 by exact HV. rewrite u32_id by lia.
  pose proof (Z.ones_equiv V) as Hones.
  destruct (fuse s + 1 <? 2 ^ V) eqn:Hcmp.
  - apply Z.ltb_lt in Hcmp.
    destruct (bsec_program_otp_ok e); simpl; [|discriminate].
    intros [= <-]. right. simpl.
    rewrite lor_ones_absorb by lia.
    split; [exact Hcmp | split; [lia | exists otp; do 3 f_equal; lia]].
  - apply Z.ltb_ge in Hcmp. intros [= <-]. left. split; [lia | reflexivity].
Qed.

(** A second run with the same or a lower version programs nothing more
    and leaves the counter as the first run left it. *)
Lemma update_twice (V V' : Z) (e : otp_env) (s s' : otp_state) :
  0 <= V' <= V -> V < 32 -> 0 <= fuse s < 2 ^ 32 - 1 ->
  update_monotonic_counter V e s = Done tt s' ->
  update_monotonic_counter V' e s' = Done tt s'.
Proof.
  intros HV' HV Hs Hrun.
  assert (2 ^ V' <= 2 ^ V) as Hpow by (apply Z.pow_le_mono_r; lia).
  assert (0 < 2 ^ V < 2 ^ 32) as HpowV by (apply pow2_lt_32; lia).
  assert (0 < 2 ^ V') as HpowV' by (apply pow2_lt_32; lia).
  assert (0 <= fuse s' < 2 ^ 32 - 1 /\ 2 ^ V' <= fuse s' + 1) as [Hs' Hmet].
  { destruct (update_below_top V e s s') as [[Hmet ->]|[Hstale [Hf _]]];
      [lia | exact Hs | exact Hrun | lia | lia]. }
  revert Hrun.
  unfold update_monotonic_counter, mbind, mget, bsec_program_otp, panic, mret.
  destruct (stm32_get_otp_index e) as [otp|]; [|discriminate].
  destruct (stm32_get_otp_value_ok e); simpl; [|discriminate].
  intros _.
  rewrite (BIT_pow2 V') by lia. rewrite u32_id by lia.
  destruct (fuse s' + 1 <? 2 ^ V') eqn:Hcmp; [|reflexivity].
  apply Z.ltb_lt in Hcmp. lia.
Qed.

(** C1: at a counter word with all 32 bits set the bound [v + 1 >= 2^V]
    holds for the declared version 1, yet [version + 1U] wraps to 0, the
    comparison with [BIT(1)] succeeds and the word is programmed again
    with the value 1. *)
Theorem update_monotonic_counter_wraps_at_top :
  2 ^ 1 <= 4294967295 + 1 /\
  update_monotonic_counter 1 nominal {| fuse := 4294967295; programmed := [] |}
  = Done tt {| fuse := 4294967295; programmed := [(1, 4)] |}.
Proof. split; [lia | reflexivity]. Qed.

End MonotonicFacts.

(** ** The clock and voltage selection *)

Module ClockFacts.
Import Clock.

(** Unfold a run down to its branches. *)
Ltac unfold_clock :=
  unfold run, initialize_clock, search_opp, sync_regulator, call,
    mbind, mmodify, mret, panic, final_state in *.

Ltac reduce_clock := cbn beta iota delta [app fst snd negb andb] in *.

(** Case analysis on the innermost test the run still depends on. *)
Ltac split_clock :=
  repeat (reduce_clock;
          match goal with
          | |- context [match ?x with _ => _ end] =>
              lazymatch x with
              | context [match _ with _ => _ end] => fail
              | _ => destruct x eqn:?
              end
          end);
  reduce_clock.

Ltac eqb_to_prop :=
  repeat match goal with
         | H : (_ =? _) = true |- _ => apply Z.eqb_eq in H
         | H : (_ =? _) = false |- _ => apply Z.eqb_neq in H
         | H : (_ <? _) = true |- _ => apply Z.ltb_lt in H
         | H : (_ <? _) = false |- _ => apply Z.ltb_ge in H
         end.

(** C3, as the claim has it, fails: on wake-up from standby with the
    settings recovered and no predefined PLL1, the restored table is
    searched for its highest operating point. *)
Lemma warm_resume_searches_restored_opp :
  stm32mp1_is_wakeup_from_standby (board true 0 1200) = true
  /\ run (board true 0 1200)
     = [EvGetPll1SettingsFromContext; EvClkGetMaxfreqOpp;
        EvRegulatorVoltageGet "buck1"; EvClkInit 650000]
  /\ existsb is_opp_search (run (board true 0 1200)) = true.
Proof. repeat split. Qed.

#[local] Set Warnings "-clear-no-such-hyp".

(** C3, amended: on wake-up from standby the device-tree search is never
    made and the run starts by recovering the saved PLL1 settings. The
    restored table is searched (for its highest point) exactly when that
    recovery succeeds and PLL1 is not predefined. The saved point is then
    used unchanged: any frequency applied is the restored one (0 when the
    block is skipped), it is applied exactly when nothing has failed
    before, a returning run ends with it, and the regulator is written
    exactly when the block is entered, the search and the read-back
    succeed and the restored voltage differs from the read-back, with
    the restored voltage (cut to 16 bits) at the CPU supply. *)
Theorem warm_resume_uses_restored_settings (e : clk_env) :
  stm32mp1_is_wakeup_from_standby e = true ->
  (exists tl, run e = EvGetPll1SettingsFromContext :: tl)
  /\ ~ In EvDtGetMaxOppFreqvolt (run e)
  /\ (In EvClkGetMaxfreqOpp (run e) <->
      stm32_get_pll1_settings_from_context e = 0
      /\ fdt_is_pll1_predefined e = false)
  /\ (forall f, In (EvClkInit f) (run e) -> f = restored_freq_khz e)
  /\ (In (EvClkInit (restored_freq_khz e)) (run e) <->
      (stm32_get_pll1_settings_from_context e <> 0 \/ fdt_is_pll1_predefined e = true)
      \/ (fst (fst (stm32mp1_clk_get_maxfreq_opp e)) = 0
          /\ (dt_pmic_status e <= 0
              \/ exists name,
                  stm32mp_get_cpu_supply_name e = Some name
                  /\ 0 <= stpmic1_regulator_voltage_get e name
                  /\ (snd (stm32mp1_clk_get_maxfreq_opp e)
                      = u32 (stpmic1_regulator_voltage_get e name)
                      \/ stpmic1_regulator_voltage_set
                           e name (u16 (snd (stm32mp1_clk_get_maxfreq_opp e))) = 0))))
  /\ ((exists tr, initialize_clock e [] = Done tt tr) ->
      last (run e) = Some (EvClkInit (restored_freq_khz e)))
  /\ (forall name mv,
        In (EvRegulatorVoltageSet name mv) (run e) <->
        stm32_get_pll1_settings_from_context e = 0
        /\ fdt_is_pll1_predefined e = false
        /\ fst (fst (stm32mp1_clk_get_maxfreq_opp e)) = 0
        /\ 0 < dt_pmic_status e
        /\ stm32mp_get_cpu_supply_name e = Some name
        /\ 0 <= stpmic1_regulator_voltage_get e name
        /\ snd (stm32mp1_clk_get_maxfreq_opp e) <> u32 (stpmic1_regulator_voltage_get e name)
        /\ mv = u16 (snd (stm32mp1_clk_get_maxfreq_opp e))).
Proof.
  intros Hw. unfold restored_freq_khz. unfold_clock. rewrite Hw.
  destruct (stm32_get_pll1_settings_from_context e =? 0) eqn:Hctx;
    destruct (fdt_is_pll1_predefined e) eqn:Hpre;
    split_clock; eqb_to_prop;
    (split; [eexists; reflexivity|]);
    (split; [simpl; intuition discriminate|]);
    (split; [simpl; intuition (try discriminate; try congruence)|]);
    (split; [simpl; intuition (try discriminate; try congruence)|]);
    (split; [simpl; naive_solver lia|]);
    (split; [simpl; intros [tr Htr]; first [discriminate Htr | reflexivity]|]);
    intros name mv; simpl; naive_solver lia.
Qed.

Lemma warm_resume_uses_restored_settings_witness :
  (exists tl, run (board true 0 1100) = EvGetPll1SettingsFromContext :: tl)
  /\ ~ In EvDtGetMaxOppFreqvolt (run (board true 0 1100))
  /\ (In EvClkGetMaxfreqOpp (run (board true 0 1100)) <->
      stm32_get_pll1_settings_from_context (board true 0 1100) = 0
      /\ fdt_is_pll1_predefined (board true 0 1100) = false)
  /\ (forall f, In (EvClkInit f) (run (board true 0 1100)) ->
                f = restored_freq_khz (board true 0 1100))
  /\ (In (EvClkInit (restored_freq_khz (board true 0 1100))) (run (board true 0 1100)) <->
      (stm32_get_pll1_settings_from_context (board true 0 1100) <> 0
       \/ fdt_is_pll1_predefined (board true 0 1100) = true)
      \/ (fst (fst (stm32mp1_clk_get_maxfreq_opp (board true 0 1100))) = 0
          /\ (dt_pmic_status (board true 0 1100) <= 0
              \/ exists name,
                  stm32mp_get_cpu_supply_name (board true 0 1100) = Some name
                  /\ 0 <= stpmic1_regulator_voltage_get (board true 0 1100) name
                  /\ (snd (stm32mp1_clk_get_maxfreq_opp (board true 0 1100))
                      = u32 (stpmic1_regulator_voltage_get (board true 0 1100) name)
                      \/ stpmic1_regulator_voltage_set
                           (board true 0 1100) name
                           (u16 (snd (stm32mp1_clk_get_maxfreq_opp (board true 0 1100))))
                         = 0))))
  /\ ((exists tr, initialize_clock (board true 0 1100) [] = Done tt tr) ->
      last (run (board true 0 1100))
      = Some (EvClkInit (restored_freq_khz (board true 0 1100))))
  /\ (forall name mv,
        In (EvRegulatorVoltageSet name mv) (run (board true 0 1100)) <->
        stm32_get_pll1_settings_from_context (board true 0 1100) = 0
        /\ fdt_is_pll1_predefined (board true 0 1100) = false
        /\ fst (fst (stm32mp1_clk_get_maxfreq_opp (board true 0 1100))) = 0
        /\ 0 < dt_pmic_status (board true 0 1100)
        /\ stm32mp_get_cpu_supply_name (board true 0 1100) = Some name
        /\ 0 <= stpmic1_regulator_voltage_get (board true 0 1100) name
        /\ snd (stm32mp1_clk_get_maxfreq_opp (board true 0 1100))
           <> u32 (stpmic1_regulator_voltage_get (board true 0 1100) name)
        /\ mv = u16 (snd (stm32mp1_clk_get_maxfreq_opp (board true 0 1100)))).
Proof. apply (warm_resume_uses_restored_settings (board true 0 1100)). reflexivity. Defined.


(** C4: with a regulator present, the block entered, the search
    successful and the regulator read back without error, a voltage
    write is issued if and only if the value read differs from the
    voltage of the selected point; what is written is that voltage,
    cut to the 16 bits of the driver's argument. *)
Theorem regulator_written_iff_voltage_differs
  (e : clk_env) (name : string) (freq_khz voltage_mv : Z) :
  0 < dt_pmic_status e ->
  (if stm32mp1_is_wakeup_from_standby e
   then stm32_get_pll1_settings_from_context e else 0) = 0 ->
  fdt_is_pll1_predefined e = false ->
  (if stm32mp1_is_wakeup_from_standby e
   then stm32mp1_clk_get_maxfreq_opp e
   else dt_get_max_opp_freqvolt e) = (0, freq_khz, voltage_mv) ->
  stm32mp_get_cpu_supply_name e = Some name ->
  0 <= stpmic1_regulator_voltage_get e name < 2 ^ 31 ->
  (existsb is_voltage_set (run e) = true
   <-> voltage_mv <> stpmic1_regulator_voltage_get e name)
  /\ (forall n mv, In (EvRegulatorVoltageSet n mv) (run e) ->
                   n = name /\ mv = u16 voltage_mv).
Proof.
  intros Hpmic Hctx Hpre Hfound Hname Hread.
  apply Z.ltb_lt in Hpmic.
  assert ((stpmic1_regulator_voltage_get e name <? 0) = false) as Hneg
      by (apply Z.ltb_ge; lia).
  assert (u32 (stpmic1_regulator_voltage_get e name)
          = stpmic1_regulator_voltage_get e name) as Hcast
      by (apply u32_id; lia).
  unfold_clock.
  destruct (stm32mp1_is_wakeup_from_standby e);
    rewrite ?Hctx, ?Hpre, ?Hfound; reduce_clock;
    rewrite ?Hctx, ?Hpre, ?Hfound; reduce_clock;
    change (0 =? 0) with true; reduce_clock;
    rewrite Hpmic, Hname; reduce_clock; rewrite Hneg, Hcast;
    destruct (voltage_mv =? stpmic1_regulator_voltage_get e name) eqn:Hcmp;
    split_clock; eqb_to_prop;
    simpl; intuition (try discriminate; try congruence).
Qed.

Lemma regulator_written_iff_voltage_differs_witness :
  (existsb is_voltage_set (run (board false 0 1200)) = true
   <-> 1350 <> stpmic1_regulator_voltage_get (board false 0 1200) "buck1")
  /\ (forall n mv, In (EvRegulatorVoltageSet n mv) (run (board false 0 1200)) ->
                   n = "buck1"%string /\ mv = u16 1350).
Proof.
  apply (regulator_written_iff_voltage_differs
           (board false 0 1200) "buck1" 1200000 1350);
    simpl; try reflexivity; lia.
Defined.

(** C5: in every run, returning or halting, a regulator write sits
    strictly before the call that applies the frequency. *)
Theorem voltage_write_precedes_clk_init
  (e : clk_env) (i j : nat) (name : string) (mv f : Z) :
  run e !! i = Some (EvRegulatorVoltageSet name mv) ->
  run e !! j = Some (EvClkInit f) ->
  (i < j)%nat.
Proof.
  unfold_clock.
  destruct (stm32mp1_is_wakeup_from_standby e);
    try destruct (stm32_get_pll1_settings_from_context e =? 0);
    destruct (fdt_is_pll1_predefined e);
    change (0 =? 0) with true;
    split_clock;
    intros Hi Hj;
    do 6 (try (destruct i as [|i]; simpl in Hi; try discriminate Hi));
    do 6 (try (destruct j as [|j]; simpl in Hj; try discriminate Hj));
    lia.
Qed.

Lemma voltage_write_precedes_clk_init_witness : (2 < 3)%nat.
Proof.
  apply (voltage_write_precedes_clk_init
           (board false 0 1200) 2 3 "buck1" (u16 1350) 1200000);
    reflexivity.
Defined.

(** C10: on wake-up from standby with a failed recovery of the PLL1
    settings, no search and no regulator access is made; the clock
    driver is initialised with frequency 0 and only its failure halts
    the boot. *)
Theorem failed_recovery_skips_to_clk_init (e : clk_env) (tr : trace) :
  stm32mp1_is_wakeup_from_standby e = true ->
  stm32_get_pll1_settings_from_context e <> 0 ->
  initialize_clock e tr
  = (if stm32mp1_clk_init e 0 <? 0 then Halt PanicCalled else Done tt)
      (tr ++ [EvGetPll1SettingsFromContext; EvClkInit 0]).
Proof.
  intros Hw Hctx. apply Z.eqb_neq in Hctx.
  unfold_clock. rewrite Hw, Hctx. reduce_clock.
  rewrite <- app_assoc. simpl.
  destruct (stm32mp1_clk_init e 0 <? 0); reflexivity.
Qed.

Lemma failed_recovery_skips_to_clk_init_witness :
  initialize_clock (board true (-22) 1200) []
  = Done tt [EvGetPll1SettingsFromContext; EvClkInit 0].
Proof.
  apply (failed_recovery_skips_to_clk_init (board true (-22) 1200) []);
    [reflexivity | discriminate].
Defined.

End ClockFacts.

(** ** The post-load image resolver *)

Module PostLoadFacts.
Import PostLoad.

(** *** Running the table operations *)

Lemma run_get_node (k : Z) (n : bl_mem_params_node_t) (s : plat_state) :
  bl_mem_params_desc s !! k = Some n ->
  get_bl_mem_params_node k s = Done (Some k) s.
Proof. intros H. unfold get_bl_mem_params_node. rewrite H. reflexivity. Qed.

Lemma run_load (k : Z) (n : bl_mem_params_node_t) (s : plat_state) :
  bl_mem_params_desc s !! k = Some n ->
  load (Some k) s = Done n s.
Proof. intros H. unfold load. rewrite H. reflexivity. Qed.

Lemma run_store (k : Z) (f : bl_mem_params_node_t -> bl_mem_params_node_t)
      (n : bl_mem_params_node_t) (s : plat_state) :
  bl_mem_params_desc s !! k = Some n ->
  store (Some k) f s = Done tt (upd k (f n) s).
Proof.
  intros H. unfold store, mbind. rewrite (run_load k n s H). reflexivity.
Qed.

Lemma lookup_upd_eq (k : Z) (n : bl_mem_params_node_t) (s : plat_state) :
  bl_mem_params_desc (upd k n s) !! k = Some n.
Proof. apply lookup_insert_eq. Qed.

Lemma lookup_upd_ne (k k' : Z) (n : bl_mem_params_node_t) (s : plat_state) :
  k <> k' ->
  bl_mem_params_desc (upd k n s) !! k' = bl_mem_params_desc s !! k'.
Proof. intros H. apply lookup_insert_ne. exact H. Qed.

Lemma upd_is_Some (k k' : Z) (n : bl_mem_params_node_t) (s : plat_state) :
  is_Some (bl_mem_params_desc s !! k') ->
  is_Some (bl_mem_params_desc (upd k n s) !! k').
Proof.
  intros H. unfold upd. simpl. apply lookup_insert_is_Some'. right. exact H.
Qed.

(** Resolve a lookup through the stores made so far. *)
Ltac solve_lookup :=
  repeat first [ rewrite lookup_upd_eq
               | rewrite lookup_upd_ne by congruence ];
  first [ reflexivity | eassumption ].

Section Bind.
Context {B : Type}.

Lemma bind_mret {A : Type} (a : A) (c : A -> M plat_state B) (s : plat_state) :
  mbind (mret a) c s = c a s.
Proof. reflexivity. Qed.

Lemma bind_assoc {A A' : Type} (c : M plat_state A) (k : A -> M plat_state A')
      (k' : A' -> M plat_state B) (s : plat_state) :
  mbind (mbind c k) k' s = mbind c (fun a => mbind (k a) k') s.
Proof. unfold mbind. destruct (c s); reflexivity. Qed.

Lemma bind_assert_true (c : unit -> M plat_state B) (s : plat_state) :
  mbind (assert true) c s = c tt s.
Proof. reflexivity. Qed.

Lemma bind_call (ev : plat_event) (c : unit -> M plat_state B) (s : plat_state) :
  mbind (call ev) c s
  = c tt {| bl_mem_params_desc := bl_mem_params_desc s;
            effects := effects s ++ [ev] |}.
Proof. reflexivity. Qed.

Lemma bind_get_node (k : Z) (n : bl_mem_params_node_t)
      (c : option Z -> M plat_state B) (s : plat_state) :
  bl_mem_params_desc s !! k = Some n ->
  mbind (get_bl_mem_params_node k) c s = c (Some k) s.
Proof. intros H. unfold mbind. rewrite (run_get_node k n s H). reflexivity. Qed.

Lemma bind_load (k : Z) (n : bl_mem_params_node_t)
      (c : bl_mem_params_node_t -> M plat_state B) (s : plat_state) :
  bl_mem_params_desc s !! k = Some n ->
  mbind (load (Some k)) c s = c n s.
Proof. intros H. unfold mbind. rewrite (run_load k n s H). reflexivity. Qed.

Lemma bind_store (k : Z) (f : bl_mem_params_node_t -> bl_mem_params_node_t)
      (n : bl_mem_params_node_t) (c : unit -> M plat_state B) (s : plat_state) :
  bl_mem_params_desc s !! k = Some n ->
  mbind (store (Some k) f) c s = c tt (upd k (f n) s).
Proof. intros H. unfold mbind. rewrite (run_store k f n s H). reflexivity. Qed.

End Bind.

(** Run the next operation of a computation. *)
Ltac run_step :=
  first [ rewrite bind_assoc
        | erewrite bind_get_node by solve_lookup
        | erewrite bind_store by solve_lookup
        | erewrite bind_load by solve_lookup
        | rewrite bind_assert_true
        | rewrite bind_mret
        | rewrite bind_call
        | erewrite run_store by solve_lookup ].

Ltac run_table :=
  cbn beta iota delta [is_null negb andb orb];
  repeat (run_step; cbn beta iota delta [is_null negb andb orb]).

(** The pairwise inequalities behind [ids_distinct]. *)
Ltac split_distinct H :=
  unfold ids_distinct in H;
  repeat (let Hn := fresh "Hn" in apply NoDup_cons in H as [Hn H]);
  repeat match goal with
         | Hn : _ ∉ _ :: _ |- _ =>
             let Hd := fresh "Hd" in apply not_elem_of_cons in Hn as [Hd Hn]
         end.

Ltac decide_ids :=
  repeat first
    [ rewrite Z.eqb_refl
    | match goal with
      | H : ?a <> ?b |- context [?a =? ?b] =>
          rewrite (proj2 (Z.eqb_neq a b) H)
      | H : ?a <> ?b |- context [?b =? ?a] =>
          rewrite (proj2 (Z.eqb_neq b a) (not_eq_sym H))
      end ].

(** *** One turn of the fw_config loop, for an identifier of the set *)

Lemma fw_config_image_in_set
      (pd : platform_def) (e : plat_env) (w : bool) (id : Z) (s : plat_state) :
  ids_distinct pd -> table_complete pd s -> id ∈ image_ids pd ->
  exists s',
    fw_config_image pd e w id s = Done None s'
    /\ effects s' = effects s
    /\ (forall k, is_Some (bl_mem_params_desc s !! k) ->
                  is_Some (bl_mem_params_desc s' !! k))
    /\ (forall k, k <> BL32_EXTRA1_IMAGE_ID pd -> k <> BL32_EXTRA2_IMAGE_ID pd ->
                  bl_mem_params_desc s' !! k
                  = if decide (k = id)
                    then fw_config_node_update pd e w id <$> bl_mem_params_desc s !! k
                    else bl_mem_params_desc s !! k).
Proof.
  intros Hd Hc Hin. split_distinct Hd.
  assert (is_Some (bl_mem_params_desc s !! BL32_IMAGE_ID pd)) as [n32 H32]
      by (apply Hc; rewrite !elem_of_cons; auto 10).
  assert (is_Some (bl_mem_params_desc s !! BL32_EXTRA1_IMAGE_ID pd)) as [nx1 Hx1]
      by (apply Hc; rewrite !elem_of_cons; auto 10).
  assert (is_Some (bl_mem_params_desc s !! BL32_EXTRA2_IMAGE_ID pd)) as [nx2 Hx2]
      by (apply Hc; rewrite !elem_of_cons; auto 10).
  assert (is_Some (bl_mem_params_desc s !! BL33_IMAGE_ID pd)) as [n33 H33]
      by (apply Hc; rewrite !elem_of_cons; auto 10).
  assert (is_Some (bl_mem_params_desc s !! HW_CONFIG_ID pd)) as [nhw Hhw]
      by (apply Hc; rewrite !elem_of_cons; auto 10).
  assert (is_Some (bl_mem_params_desc s !! TOS_FW_CONFIG_ID pd)) as [ntos Htos]
      by (apply Hc; rewrite !elem_of_cons; auto 10).
  unfold image_ids in Hin.
  repeat (apply elem_of_cons in Hin as [-> | Hin]); [| | | | by apply elem_of_nil in Hin].
  all: unfold fw_config_image, fw_config_node_update.
  all: destruct (dyn_cfg_dtb_getter e _) as [ci|].
  all: decide_ids.
  all: try destruct (negb _).
  all: try destruct w.
  all: eexists; split; [run_table; reflexivity|].
  all: split; [reflexivity|].
  all: split; [intros k Hk; repeat apply upd_is_Some; exact Hk|].
  all: intros k Hk1 Hk2; destruct (decide (k = _)) as [->|Hne].
  all: repeat first [ rewrite lookup_upd_eq
                    | rewrite lookup_upd_ne by congruence ].
  all: try match goal with
           | H : bl_mem_params_desc ?s0 !! ?k = Some _
             |- context [bl_mem_params_desc ?s0 !! ?k] => rewrite H
           end.
  all: reflexivity.
Qed.

(** *** One turn of the loop, for an identifier outside the set *)


(** *** The loop over identifiers of the set *)

Lemma fw_config_loop_in_set
      (pd : platform_def) (e : plat_env) (w : bool) (ids : list Z) :
  ids_distinct pd -> NoDup ids -> (forall k, k ∈ ids -> k ∈ image_ids pd) ->
  forall s, table_complete pd s ->
  exists s',
    fw_config_loop pd e w ids s = Done None s'
    /\ effects s' = effects s
    /\ (forall k, k <> BL32_EXTRA1_IMAGE_ID pd -> k <> BL32_EXTRA2_IMAGE_ID pd ->
                  bl_mem_params_desc s' !! k
                  = if decide (k ∈ ids)
                    then fw_config_node_update pd e w k <$> bl_mem_params_desc s !! k
                    else bl_mem_params_desc s !! k).
Proof.
  intros Hd Hnd Hsub. induction ids as [|id rest IH]; intros s Hc.
  - exists s. split; [reflexivity|]. split; [reflexivity|]. intros k _ _.
    destruct (decide (k ∈ [])) as [Hin|_]; [by apply elem_of_nil in Hin | reflexivity].
  - apply NoDup_cons in Hnd as [Hfresh Hnd].
    destruct (fw_config_image_in_set pd e w id s Hd Hc) as (s1 & Hrun & Hef & Hdom & Hlk).
    { apply Hsub. apply elem_of_cons. left. reflexivity. }
    destruct (IH Hnd) with (s := s1) as (s' & Hrun' & Hef' & Hlk').
    { intros k Hk. apply Hsub. apply elem_of_cons. right. exact Hk. }
    { intros k Hk. apply Hdom. apply Hc. exact Hk. }
    exists s'. split; [|split].
    + simpl. unfold mbind. rewrite Hrun. exact Hrun'.
    + congruence.
    + intros k Hk1 Hk2. rewrite (Hlk' k Hk1 Hk2), (Hlk k Hk1 Hk2).
      destruct (decide (k = id)) as [->|Hne].
      * destruct (decide (id ∈ rest)) as [Hin|_]; [contradiction|].
        destruct (decide (id ∈ id :: rest)) as [_|Hout]; [reflexivity|].
        exfalso. apply Hout. apply elem_of_cons. left. reflexivity.
      * destruct (decide (k ∈ rest)) as [Hin|Hout];
          destruct (decide (k ∈ id :: rest)) as [Hin'|Hout']; try reflexivity.
        -- exfalso. apply Hout'. apply elem_of_cons. right. exact Hin.
        -- exfalso. apply elem_of_cons in Hin' as [Heq|Hin']; contradiction.
Qed.

Lemma image_ids_NoDup (pd : platform_def) : ids_distinct pd -> NoDup (image_ids pd).
Proof.
  intros Hd. split_distinct Hd. unfold image_ids.
  repeat (apply NoDup_cons; split;
          [rewrite ?not_elem_of_cons; repeat split; try congruence; apply not_elem_of_nil|]).
  apply NoDup_nil. exact I.
Qed.

Lemma image_ids_not_extra (pd : platform_def) (k : Z) :
  ids_distinct pd -> k ∈ image_ids pd ->
  k <> BL32_EXTRA1_IMAGE_ID pd /\ k <> BL32_EXTRA2_IMAGE_ID pd /\ k <> FW_CONFIG_ID pd.
Proof.
  intros Hd Hk. split_distinct Hd. unfold image_ids in Hk.
  repeat (apply elem_of_cons in Hk as [-> | Hk]);
    [| | | | by apply elem_of_nil in Hk]; repeat split; congruence.
Qed.

(** *** The fw_config case of the resolver *)

Lemma fw_config_resolution
      (pd : platform_def) (e : plat_env) (s : plat_state) :
  ids_distinct pd -> STM32MP_USE_STM32IMAGE pd = false ->
  table_complete pd s -> is_Some (bl_mem_params_desc s !! FW_CONFIG_ID pd) ->
  exists s',
    bl2_plat_handle_post_image_load pd e (FW_CONFIG_ID pd) s = Done 0 s'
    /\ effects s'
       = effects s ++ [EvSetConfigInfo (STM32MP_FW_CONFIG_BASE pd)
                                       (STM32MP_FW_CONFIG_MAX_SIZE pd) (FW_CONFIG_ID pd);
                       EvFconfPopulate "FW_CONFIG" (STM32MP_FW_CONFIG_BASE pd)]
    /\ (forall k, k ∈ image_ids pd ->
                  bl_mem_params_desc s' !! k
                  = fw_config_node_update pd e (stm32mp1_ddr_is_restored e) k
                      <$> bl_mem_params_desc s !! k).
Proof.
  intros Hd Himg Hc [nfw Hfw].
  set (s0 := {| bl_mem_params_desc := bl_mem_params_desc s;
                effects := (effects s ++ [EvSetConfigInfo (STM32MP_FW_CONFIG_BASE pd)
                                       (STM32MP_FW_CONFIG_MAX_SIZE pd) (FW_CONFIG_ID pd)])
                           ++ [EvFconfPopulate "FW_CONFIG" (STM32MP_FW_CONFIG_BASE pd)] |}).
  destruct (fw_config_loop_in_set pd e (stm32mp1_ddr_is_restored e) (image_ids pd)
              Hd (image_ids_NoDup pd Hd) (fun k H => H) s0)
    as (s' & Hrun & Hef & Hlk).
  { intros k Hk. apply (Hc k Hk). }
  exists s'. split; [|split].
  - unfold bl2_plat_handle_post_image_load, fw_config_case.
    rewrite Himg, andb_false_r, Z.eqb_refl.
    run_table. cbn [bl_mem_params_desc effects]. fold s0.
    unfold mbind. rewrite Hrun. reflexivity.
  - rewrite Hef. unfold s0. simpl. rewrite <- app_assoc. reflexivity.
  - intros k Hk.
    destruct (image_ids_not_extra pd k Hd Hk) as (Hk1 & Hk2 & _).
    rewrite (Hlk k Hk1 Hk2).
    destruct (decide (k ∈ image_ids pd)) as [_|Hout]; [reflexivity | contradiction].
Qed.

(** *** The loop over arbitrary identifiers *)


(** Discharge a side condition on the example build by evaluation. *)
Ltac by_evaluation :=
  lazymatch goal with
  | |- ids_distinct _ =>
      unfold ids_distinct; apply (bool_decide_unpack _); vm_compute; exact I
  | |- table_complete _ _ =>
      let k := fresh "k" in
      let Hk := fresh "Hk" in
      intros k Hk; repeat (apply elem_of_cons in Hk as [->|Hk]);
      [..|by apply elem_of_nil in Hk]; vm_compute; eauto
  | |- forall k, k ∈ _ -> is_Some _ =>
      let k := fresh "k" in
      let Hk := fresh "Hk" in
      intros k Hk; repeat (apply elem_of_cons in Hk as [->|Hk]);
      [..|by apply elem_of_nil in Hk]; vm_compute; eauto
  | |- is_Some _ => vm_compute; eauto
  | |- _ ∈ _ => apply (bool_decide_unpack _); vm_compute; exact I
  | |- _ ∉ _ => apply (bool_decide_unpack _); vm_compute; exact I
  | |- _ <> _ => vm_compute; discriminate
  | |- _ = _ => vm_compute; reflexivity
  end.

(** *** The claims on the fw_config case *)

(** C2: after the fw_config case, for each identifier of the loop that
    the fw_config describes, the skip-loading bit is cleared (and no
    other bit touched) unless the DDR was restored and the configured
    address is at or above the DDR base, in which case the attribute is
    as it was. For an attribute that had the bit set, the bit ends up
    clear if and only if that condition fails. *)
Theorem skip_loading_cleared_unless_retained
        (pd : platform_def) (e : plat_env) (s : plat_state)
        (id : Z) (n : bl_mem_params_node_t) (ci : dyn_cfg_dtb_info_t) :
  ids_distinct pd -> STM32MP_USE_STM32IMAGE pd = false ->
  table_complete pd s -> is_Some (bl_mem_params_desc s !! FW_CONFIG_ID pd) ->
  id ∈ image_ids pd ->
  bl_mem_params_desc s !! id = Some n ->
  dyn_cfg_dtb_getter e id = Some ci ->
  exists s' n',
    bl2_plat_handle_post_image_load pd e (FW_CONFIG_ID pd) s = Done 0 s'
    /\ bl_mem_params_desc s' !! id = Some n'
    /\ (~ (stm32mp1_ddr_is_restored e = true /\ STM32MP_DDR_BASE pd <= config_addr ci) ->
        h_attr (image_info n')
        = Z.land (h_attr (image_info n)) (u32 (Z.lnot (IMAGE_ATTRIB_SKIP_LOADING pd)))
        /\ Z.land (h_attr (image_info n')) (IMAGE_ATTRIB_SKIP_LOADING pd) = 0)
    /\ (stm32mp1_ddr_is_restored e = true /\ STM32MP_DDR_BASE pd <= config_addr ci ->
        h_attr (image_info n') = h_attr (image_info n))
    /\ (Z.land (h_attr (image_info n)) (IMAGE_ATTRIB_SKIP_LOADING pd) <> 0 ->
        (Z.land (h_attr (image_info n')) (IMAGE_ATTRIB_SKIP_LOADING pd) = 0
         <-> ~ (stm32mp1_ddr_is_restored e = true
                /\ STM32MP_DDR_BASE pd <= config_addr ci))).
Proof.
  intros Hd Himg Hc Hfw Hin Hn Hcfg.
  destruct (fw_config_resolution pd e s Hd Himg Hc Hfw) as (s' & Hrun & _ & Hlk).
  specialize (Hlk id Hin). rewrite Hn in Hlk. simpl in Hlk.
  exists s'. eexists. split; [exact Hrun|]. split; [exact Hlk|].
  unfold fw_config_node_update. rewrite Hcfg.
  destruct (stm32mp1_ddr_is_restored e); simpl;
    [destruct (STM32MP_DDR_BASE pd <=? config_addr ci) eqn:Hcmp; simpl;
     [apply Z.leb_le in Hcmp | apply Z.leb_gt in Hcmp]|];
    destruct (id =? BL32_IMAGE_ID pd); try destruct (id =? BL33_IMAGE_ID pd); simpl;
    pose proof (land_clear_mask (h_attr (image_info n)) (IMAGE_ATTRIB_SKIP_LOADING pd));
    intuition (try lia; try congruence).
Qed.

Lemma skip_loading_cleared_unless_retained_witness :
  exists s' n',
    bl2_plat_handle_post_image_load fip_build (boot_env true false 0) 31
                                    (boot_table 0x20000 0x1000) = Done 0 s'
    /\ bl_mem_params_desc s' !! 4 = Some n'
    /\ (~ (true = true /\ 0xC0000000 <= 0x2FFC0000) ->
        h_attr (image_info n') = Z.land 2 (u32 (Z.lnot 2))
        /\ Z.land (h_attr (image_info n')) 2 = 0)
    /\ (true = true /\ 0xC0000000 <= 0x2FFC0000 -> h_attr (image_info n') = 2)
    /\ (Z.land 2 2 <> 0 ->
        (Z.land (h_attr (image_info n')) 2 = 0
         <-> ~ (true = true /\ 0xC0000000 <= 0x2FFC0000))).
Proof.
  apply (skip_loading_cleared_unless_retained
           fip_build (boot_env true false 0) (boot_table 0x20000 0x1000) 4
           (node 2 0x2FFC0000 0x20000)
           {| config_addr := 0x2FFC0000; config_max_size := 0x20000 |});
    by_evaluation.
Defined.

(** C8: after the fw_config case, when the fw_config describes BL33,
    the entry of BL33 is 0 if the DDR was restored and the configured
    address otherwise. *)
Theorem bl33_entry_after_fw_config
        (pd : platform_def) (e : plat_env) (s : plat_state)
        (n : bl_mem_params_node_t) (ci : dyn_cfg_dtb_info_t) :
  ids_distinct pd -> STM32MP_USE_STM32IMAGE pd = false ->
  table_complete pd s -> is_Some (bl_mem_params_desc s !! FW_CONFIG_ID pd) ->
  bl_mem_params_desc s !! BL33_IMAGE_ID pd = Some n ->
  dyn_cfg_dtb_getter e (BL33_IMAGE_ID pd) = Some ci ->
  exists s' n',
    bl2_plat_handle_post_image_load pd e (FW_CONFIG_ID pd) s = Done 0 s'
    /\ bl_mem_params_desc s' !! BL33_IMAGE_ID pd = Some n'
    /\ pc (ep_info n') = if stm32mp1_ddr_is_restored e then 0 else config_addr ci.
Proof.
  intros Hd Himg Hc Hfw Hn Hcfg.
  destruct (fw_config_resolution pd e s Hd Himg Hc Hfw) as (s' & Hrun & _ & Hlk).
  specialize (Hlk (BL33_IMAGE_ID pd)). rewrite Hn in Hlk. simpl in Hlk.
  exists s'. eexists. split; [exact Hrun|]. split.
  - apply Hlk. unfold image_ids. rewrite !elem_of_cons. auto.
  - unfold fw_config_node_update. rewrite Hcfg.
    split_distinct Hd. decide_ids.
    destruct (stm32mp1_ddr_is_restored e); reflexivity.
Qed.

Lemma bl33_entry_after_fw_config_witness :
  exists s' n',
    bl2_plat_handle_post_image_load fip_build (boot_env true false 0) 31
                                    (boot_table 0x20000 0x1000) = Done 0 s'
    /\ bl_mem_params_desc s' !! 5 = Some n'
    /\ pc (ep_info n') = 0.
Proof.
  apply (bl33_entry_after_fw_config
           fip_build (boot_env true false 0) (boot_table 0x20000 0x1000)
           (node 2 0xC0100000 0x100000)
           {| config_addr := 0xC0100000; config_max_size := 0x100000 |});
    by_evaluation.
Defined.




(** *** The claims on the secure-OS case *)

Lemma set_pc_twice (v v' : Z) (n : bl_mem_params_node_t) :
  set_pc v (set_pc v' n) = set_pc v n.
Proof. reflexivity. Qed.

(** C6: for BL32 with an OP-TEE header, the DDR restored and the saved
    OP-TEE entry inside the backup SRAM, the resolver returns 0, its only
    effect outside the table is to enable the BKPSRAM clock, and the
    table is the one on entry except for the entry point of BL32, set to
    the saved entry: no [image_info] of any node changes. *)
Theorem warm_resume_backup_sram_entry
        (pd : platform_def) (e : plat_env) (s : plat_state)
        (n : bl_mem_params_node_t) :
  STM32MP_USE_STM32IMAGE pd = false ->
  BL32_IMAGE_ID pd <> FW_CONFIG_ID pd ->
  bl_mem_params_desc s !! BL32_IMAGE_ID pd = Some n ->
  fst (get_optee_header_ep e (ep_info (set_pc (image_base (image_info n)) n))) = true ->
  stm32mp1_ddr_is_restored e = true ->
  stm32mp1_addr_inside_backupsram e (stm32_pm_get_optee_ep e) = true ->
  exists s',
    bl2_plat_handle_post_image_load pd e (BL32_IMAGE_ID pd) s = Done 0 s'
    /\ effects s' = effects s ++ [EvClkEnable (BKPSRAM pd)]
    /\ bl_mem_params_desc s'
       = <[BL32_IMAGE_ID pd := set_pc (stm32_pm_get_optee_ep e) n]> (bl_mem_params_desc s)
    /\ (forall k, image_info <$> bl_mem_params_desc s' !! k
                  = image_info <$> bl_mem_params_desc s !! k).
Proof.
  intros Himg Hne Hn Hvalid Hw Hin.
  unfold bl2_plat_handle_post_image_load, bl32_case.
  rewrite Himg, andb_false_r, orb_true_r. simpl negb.
  rewrite (proj2 (Z.eqb_neq _ _) Hne), Z.eqb_refl.
  run_table.
  destruct (get_optee_header_ep e _) as [valid stored]. simpl in Hvalid. subst valid.
  rewrite Hw.
  destruct stored as [v|]; run_table.
  all: cbn [pc ep_info set_pc set_ep_info]; rewrite Hin; run_table.
  all: rewrite !set_pc_twice.
  all: eexists; split; [reflexivity|]; cbn [effects bl_mem_params_desc upd].
  all: split; [reflexivity|].
  all: rewrite !insert_insert_eq.
  all: split; [reflexivity|].
  all: intros k; destruct (decide (k = BL32_IMAGE_ID pd)) as [->|Hk];
    [rewrite lookup_insert_eq, Hn; reflexivity
    |rewrite lookup_insert_ne by congruence; reflexivity].
Qed.

Lemma warm_resume_backup_sram_entry_witness :
  exists s',
    bl2_plat_handle_post_image_load fip_build (boot_env true true 0x40001000) 4
                                    (boot_table 0x20000 0x1000) = Done 0 s'
    /\ effects s' = [EvClkEnable 48]
    /\ bl_mem_params_desc s'
       = <[4 := set_pc 0x40001000 (node 2 0x2FFC0000 0x20000)]>
           (bl_mem_params_desc (boot_table 0x20000 0x1000))
    /\ (forall k, image_info <$> bl_mem_params_desc s' !! k
                  = image_info <$> bl_mem_params_desc (boot_table 0x20000 0x1000) !! k).
Proof.
  apply (warm_resume_backup_sram_entry
           fip_build (boot_env true true 0x40001000) (boot_table 0x20000 0x1000)
           (node 2 0x2FFC0000 0x20000));
    by_evaluation.
Defined.

(** C9, as the claim has it, fails: the two sizes are added in 32 bits.
    With a plain BL32 of maximum size 0xFFFFFFFF and a secure-OS config
    of maximum size 1 the result is 0, not their sum. *)
Lemma plain_bl32_size_sum_wraps :
  exists s' n',
    bl2_plat_handle_post_image_load fip_build (boot_env false false 0) 4
                                    (boot_table 0xFFFFFFFF 1) = Done 0 s'
    /\ bl_mem_params_desc s' !! 4 = Some n'
    /\ image_max_size (image_info n') = 0
    /\ image_max_size (image_info n') <> 0xFFFFFFFF + 1.
Proof.
  eexists. eexists. split; [vm_compute; reflexivity|].
  split; [vm_compute; reflexivity|]. split; [reflexivity | discriminate].
Qed.

(** C9, amended: for a plain BL32 the resolver returns 0 and leaves the
    maximum size of BL32 at the sum of its former value and the maximum
    size of the secure-OS config, reduced modulo 2^32 (so at the sum
    itself when it fits in 32 bits), and [arg0] at 0. *)
Theorem plain_bl32_folds_tos_fw_config_size
        (pd : platform_def) (e : plat_env) (s : plat_state)
        (n tos : bl_mem_params_node_t) :
  STM32MP_USE_STM32IMAGE pd = false ->
  BL32_IMAGE_ID pd <> FW_CONFIG_ID pd ->
  BL32_IMAGE_ID pd <> TOS_FW_CONFIG_ID pd ->
  bl_mem_params_desc s !! BL32_IMAGE_ID pd = Some n ->
  bl_mem_params_desc s !! TOS_FW_CONFIG_ID pd = Some tos ->
  fst (get_optee_header_ep e (ep_info (set_pc (image_base (image_info n)) n))) = false ->
  exists s' n',
    bl2_plat_handle_post_image_load pd e (BL32_IMAGE_ID pd) s = Done 0 s'
    /\ bl_mem_params_desc s' !! BL32_IMAGE_ID pd = Some n'
    /\ image_max_size (image_info n')
       = u32 (image_max_size (image_info n) + image_max_size (image_info tos))
    /\ (0 <= image_max_size (image_info n) + image_max_size (image_info tos) < 2 ^ 32 ->
        image_max_size (image_info n')
        = image_max_size (image_info n) + image_max_size (image_info tos))
    /\ arg0 (args (ep_info n')) = 0.
Proof.
  intros Himg Hne Hne' Hn Htos Hplain.
  unfold bl2_plat_handle_post_image_load, bl32_case, bl32_save_context.
  rewrite Himg, andb_false_r, orb_true_r. simpl negb.
  rewrite (proj2 (Z.eqb_neq _ _) Hne), Z.eqb_refl.
  run_table.
  destruct (get_optee_header_ep e _) as [valid stored]. simpl in Hplain. subst valid.
  destruct stored as [v|]; run_table.
  all: match goal with
       | |- context [if ?c then call _ else _] => destruct c
       end; run_table.
  all: eexists; eexists; split; [reflexivity|].
  all: cbn [bl_mem_params_desc]; split; [solve_lookup|].
  all: cbn; split; [reflexivity|]; split; [intros Hfit; apply u32_id; exact Hfit | reflexivity].
Qed.

Lemma plain_bl32_folds_tos_fw_config_size_witness :
  exists s' n',
    bl2_plat_handle_post_image_load fip_build (boot_env false false 0) 4
                                    (boot_table 0x20000 0x1000) = Done 0 s'
    /\ bl_mem_params_desc s' !! 4 = Some n'
    /\ image_max_size (image_info n') = u32 (0x20000 + 0x1000)
    /\ (0 <= 0x20000 + 0x1000 < 2 ^ 32 ->
        image_max_size (image_info n') = 0x20000 + 0x1000)
    /\ arg0 (args (ep_info n')) = 0.
Proof.
  apply (plain_bl32_folds_tos_fw_config_size
           fip_build (boot_env false false 0) (boot_table 0x20000 0x1000)
           (node 2 0x2FFC0000 0x20000) (node 2 0x2FFCF000 0x1000));
    by_evaluation.
Defined.

End PostLoadFacts.

(** * Further properties of the file *)

(** ** The anti-rollback counter *)

Module MonotonicMore.
Import Monotonic.

(** X1: a run issues at most one programming request, whether it returns
    or halts; the request, if any, carries the thermometer code
    [2^V - 1] and the word index that [stm32_get_otp_index] gave. *)
Theorem programs_at_most_once (V : Z) (e : otp_env) (s : otp_state) :
  0 <= V < 32 ->
  programmed (final_state (update_monotonic_counter V e s)) = programmed s
  \/ exists otp, stm32_get_otp_index e = Some otp
                 /\ programmed (final_state (update_monotonic_counter V e s))
                    = programmed s ++ [(2 ^ V - 1, otp)].
Proof.
  intros HV. unfold update_monotonic_counter, mbind, mget, bsec_program_otp, panic, mret.
  destruct (stm32_get_otp_index e) as [otp|]; [|left; reflexivity].
  destruct (stm32_get_otp_value_ok e); simpl; [|left; reflexivity].
  destruct (u32 (fuse s + 1) <? BIT V); [|left; reflexivity].
  right. exists otp. split; [reflexivity|].
  rewrite BIT_pow2 by exact HV. pose proof (pow2_lt_32 V HV).
  rewrite u32_id by lia.
  destruct (bsec_program_otp_ok e); reflexivity.
Qed.

Lemma programs_at_most_once_witness :
  programmed (final_state (update_monotonic_counter 3 nominal
                             {| fuse := 1; programmed := [] |})) = []
  \/ exists otp, stm32_get_otp_index nominal = Some otp
                 /\ programmed (final_state (update_monotonic_counter 3 nominal
                                               {| fuse := 1; programmed := [] |}))
                    = [] ++ [(2 ^ 3 - 1, otp)].
Proof.
  apply (programs_at_most_once 3 nominal {| fuse := 1; programmed := [] |}). lia.
Defined.

(** X2: for a counter below the all-ones word that already meets the
    bound of the declared version, the run changes nothing: no request is
    issued and the word is as it was. *)
Theorem bound_met_below_top_is_silent (V : Z) (e : otp_env) (s : otp_state) :
  0 <= V < 32 -> 0 <= fuse s < 2 ^ 32 - 1 -> 2 ^ V <= fuse s + 1 ->
  final_state (update_monotonic_counter V e s) = s
  /\ (stm32_get_otp_index e <> None -> stm32_get_otp_value_ok e = true ->
      update_monotonic_counter V e s = Done tt s).
Proof.
  intros HV Hs Hbound. unfold update_monotonic_counter, mbind, mget, panic, mret.
  destruct (stm32_get_otp_index e) as [otp|]; [|split; [reflexivity | congruence]].
  destruct (stm32_get_otp_value_ok e); simpl; [|split; [reflexivity | discriminate]].
  rewrite BIT_pow2 by exact HV. rewrite u32_id by lia.
  destruct (fuse s + 1 <? 2 ^ V) eqn:Hcmp; [|split; reflexivity].
  apply Z.ltb_lt in Hcmp. lia.
Qed.

Lemma bound_met_below_top_is_silent_witness :
  final_state (update_monotonic_counter 3 nominal {| fuse := 7; programmed := [] |})
  = {| fuse := 7; programmed := [] |}
  /\ (stm32_get_otp_index nominal <> None -> stm32_get_otp_value_ok nominal = true ->
      update_monotonic_counter 3 nominal {| fuse := 7; programmed := [] |}
      = Done tt {| fuse := 7; programmed := [] |}).
Proof.
  apply (bound_met_below_top_is_silent 3 nominal {| fuse := 7; programmed := [] |});
    simpl; lia.
Defined.

(** X3: a stale counter ([v + 1 < 2^V]) is always sent to programming,
    with the value [2^V - 1], and the run returns exactly when the
    programming reports [BSEC_OK]: a failed programming halts the boot. *)
Theorem stale_counter_programmed_or_halt
        (V otp : Z) (e : otp_env) (s : otp_state) :
  0 <= V < 32 -> 0 <= fuse s -> fuse s + 1 < 2 ^ V ->
  stm32_get_otp_index e = Some otp -> stm32_get_otp_value_ok e = true ->
  programmed (final_state (update_monotonic_counter V e s))
  = programmed s ++ [(2 ^ V - 1, otp)]
  /\ ((exists s', update_monotonic_counter V e s = Done tt s')
      <-> bsec_program_otp_ok e = true)
  /\ (bsec_program_otp_ok e = false ->
      exists s', update_monotonic_counter V e s = Halt PanicCalled s').
Proof.
  intros HV Hs Hstale Hidx Hval.
  unfold update_monotonic_counter, mbind, mget, bsec_program_otp, panic, mret.
  rewrite Hidx, Hval. simpl.
  rewrite BIT_pow2 by exact HV. pose proof (pow2_lt_32 V HV).
  rewrite !u32_id by lia.
  apply Z.ltb_lt in Hstale. rewrite Hstale.
  destruct (bsec_program_otp_ok e); simpl.
  - split; [reflexivity|]. split; [|discriminate].
    split; [reflexivity | intros _; eexists; reflexivity].
  - split; [reflexivity|]. split; [|intros _; eexists; reflexivity].
    split; [intros [s' Hs']; discriminate | discriminate].
Qed.

Lemma stale_counter_programmed_or_halt_witness :
  programmed (final_state (update_monotonic_counter 3 nominal
                             {| fuse := 1; programmed := [] |}))
  = [] ++ [(2 ^ 3 - 1, 4)]
  /\ ((exists s', update_monotonic_counter 3 nominal {| fuse := 1; programmed := [] |}
                  = Done tt s')
      <-> bsec_program_otp_ok nominal = true)
  /\ (bsec_program_otp_ok nominal = false ->
      exists s', update_monotonic_counter 3 nominal {| fuse := 1; programmed := [] |}
                 = Halt PanicCalled s').
Proof.
  apply (stale_counter_programmed_or_halt 3 4 nominal {| fuse := 1; programmed := [] |});
    simpl; try reflexivity; lia.
Defined.

End MonotonicMore.

(** ** The reset reason report *)

Module ResetReasonFacts.
Import ResetReason.

Lemma flag_set_zero (flag : Z) : flag_set 0 flag = false.
Proof. unfold flag_set. rewrite Z.land_0_l. reflexivity. Qed.

(** Case analysis along the chain of tests. *)
Ltac split_flags :=
  repeat match goal with
         | |- context [flag_set ?r ?m] => destruct (flag_set r m) eqn:?
         end;
  cbn [negb andb].

Ltac solve_line :=
  cbn; intuition (try discriminate; try congruence).

(** X4: the standby exit line is logged exactly when the pad-reset flag is
    clear and the standby flag is set, whatever the other flags say. *)
Theorem standby_exit_reported_iff (f : rcc_flags) (rstsr : Z) :
  In InfoStandbyExit (print_reset_reason f rstsr)
  <-> flag_set rstsr (RCC_MP_RSTSCLRR_PADRSTF f) = false
      /\ flag_set rstsr (RCC_MP_RSTSCLRR_STDBYRSTF f) = true.
Proof.
  unfold print_reset_reason.
  destruct (rstsr =? 0) eqn:Hz.
  - apply Z.eqb_eq in Hz. subst rstsr. rewrite !flag_set_zero. solve_line.
  - split_flags; solve_line.
Qed.

(** X5: a pad reset (NRST) is reported only as a last resort: exactly
    when the pad flag is set and none of the power-on, brownout, MCU, MPU,
    HSE, watchdog and processor flags is. *)
Theorem pad_reset_reported_iff (f : rcc_flags) (rstsr : Z) :
  In InfoPadReset (print_reset_reason f rstsr)
  <-> flag_set rstsr (RCC_MP_RSTSCLRR_PADRSTF f) = true
      /\ flag_set rstsr (RCC_MP_RSTSCLRR_PORRSTF f) = false
      /\ flag_set rstsr (RCC_MP_RSTSCLRR_BORRSTF f) = false
      /\ flag_set rstsr (RCC_MP_RSTSCLRR_MCSYSRSTF f) = false
      /\ flag_set rstsr (RCC_MP_RSTSCLRR_MPSYSRSTF f) = false
      /\ flag_set rstsr (RCC_MP_RSTSCLRR_HCSSRSTF f) = false
      /\ flag_set rstsr (RCC_MP_RSTSCLRR_IWDG1RSTF f) = false
      /\ flag_set rstsr (RCC_MP_RSTSCLRR_IWDG2RSTF f) = false
      /\ flag_set rstsr (RCC_MP_RSTSCLRR_MPUP0RSTF f) = false
      /\ flag_set rstsr (RCC_MP_RSTSCLRR_MPUP1RSTF f) = false.
Proof.
  unfold print_reset_reason.
  destruct (rstsr =? 0) eqn:Hz.
  - apply Z.eqb_eq in Hz. subst rstsr. rewrite !flag_set_zero. solve_line.
  - destruct (flag_set rstsr (RCC_MP_RSTSCLRR_PADRSTF f)) eqn:Hpad; cbn [negb andb];
      [|destruct (flag_set rstsr (RCC_MP_RSTSCLRR_STDBYRSTF f));
        destruct (flag_set rstsr (RCC_MP_RSTSCLRR_CSTDBYRSTF f)); cbn [negb andb]];
      repeat match goal with
             | |- context [if flag_set ?r ?m then _ else _] =>
                 destruct (flag_set r m) eqn:?
             end;
      solve_line.
Qed.

(** X6: a reset by the MCU is called a system reset when the pad flag is
    set and a local reset when it is clear. *)
Theorem mcu_reset_kind_follows_pad (f : rcc_flags) (rstsr : Z) :
  (In InfoMcuSystemReset (print_reset_reason f rstsr) ->
   flag_set rstsr (RCC_MP_RSTSCLRR_MCSYSRSTF f) = true
   /\ flag_set rstsr (RCC_MP_RSTSCLRR_PADRSTF f) = true)
  /\ (In InfoMcuLocalReset (print_reset_reason f rstsr) ->
      flag_set rstsr (RCC_MP_RSTSCLRR_MCSYSRSTF f) = true
      /\ flag_set rstsr (RCC_MP_RSTSCLRR_PADRSTF f) = false)
  /\ (flag_set rstsr (RCC_MP_RSTSCLRR_MCSYSRSTF f) = true ->
      flag_set rstsr (RCC_MP_RSTSCLRR_PADRSTF f) = true ->
      flag_set rstsr (RCC_MP_RSTSCLRR_PORRSTF f) = false ->
      flag_set rstsr (RCC_MP_RSTSCLRR_BORRSTF f) = false ->
      print_reset_reason f rstsr = [InfoResetReason rstsr; InfoMcuSystemReset]).
Proof.
  unfold print_reset_reason.
  destruct (rstsr =? 0) eqn:Hz.
  - apply Z.eqb_eq in Hz. subst rstsr. rewrite !flag_set_zero. solve_line.
  - destruct (flag_set rstsr (RCC_MP_RSTSCLRR_PADRSTF f)) eqn:Hpad; cbn [negb andb];
      [|destruct (flag_set rstsr (RCC_MP_RSTSCLRR_STDBYRSTF f));
        destruct (flag_set rstsr (RCC_MP_RSTSCLRR_CSTDBYRSTF f)); cbn [negb andb]];
      repeat match goal with
             | |- context [if flag_set ?r ?m then _ else _] =>
                 destruct (flag_set r m) eqn:?
             end;
      solve_line.
Qed.

Lemma mcu_reset_kind_follows_pad_witness :
  print_reset_reason one_bit_flags 0x84 = [InfoResetReason 0x84; InfoMcuSystemReset].
Proof.
  apply (mcu_reset_kind_follows_pad one_bit_flags 0x84); reflexivity.
Defined.

(** X7: the unidentified-reason error is logged exactly for a non-zero
    status in which none of the thirteen known flags is set. *)
Theorem unidentified_reported_iff (f : rcc_flags) (rstsr : Z) :
  In ErrorUnidentified (print_reset_reason f rstsr)
  <-> rstsr <> 0
      /\ flag_set rstsr (RCC_MP_RSTSCLRR_PADRSTF f) = false
      /\ flag_set rstsr (RCC_MP_RSTSCLRR_STDBYRSTF f) = false
      /\ flag_set rstsr (RCC_MP_RSTSCLRR_CSTDBYRSTF f) = false
      /\ flag_set rstsr (RCC_MP_RSTSCLRR_PORRSTF f) = false
      /\ flag_set rstsr (RCC_MP_RSTSCLRR_BORRSTF f) = false
      /\ flag_set rstsr (RCC_MP_RSTSCLRR_MCSYSRSTF f) = false
      /\ flag_set rstsr (RCC_MP_RSTSCLRR_MPSYSRSTF f) = false
      /\ flag_set rstsr (RCC_MP_RSTSCLRR_HCSSRSTF f) = false
      /\ flag_set rstsr (RCC_MP_RSTSCLRR_IWDG1RSTF f) = false
      /\ flag_set rstsr (RCC_MP_RSTSCLRR_IWDG2RSTF f) = false
      /\ flag_set rstsr (RCC_MP_RSTSCLRR_MPUP0RSTF f) = false
      /\ flag_set rstsr (RCC_MP_RSTSCLRR_MPUP1RSTF f) = false
      /\ flag_set rstsr (RCC_MP_RSTSCLRR_VCORERSTF f) = false.
Proof.
  unfold print_reset_reason.
  destruct (rstsr =? 0) eqn:Hz.
  - apply Z.eqb_eq in Hz. subst rstsr. rewrite !flag_set_zero. solve_line.
  - apply Z.eqb_neq in Hz.
    destruct (flag_set rstsr (RCC_MP_RSTSCLRR_PADRSTF f)) eqn:Hpad; cbn [negb andb];
      [|destruct (flag_set rstsr (RCC_MP_RSTSCLRR_STDBYRSTF f));
        destruct (flag_set rstsr (RCC_MP_RSTSCLRR_CSTDBYRSTF f)); cbn [negb andb]];
      repeat match goal with
             | |- context [if flag_set ?r ?m then _ else _] =>
                 destruct (flag_set r m) eqn:?
             end;
      solve_line.
Qed.

End ResetReasonFacts.

(** ** DDR bring-up *)

Module PlatformSetupFacts.
Import PlatformSetup.

Ltac unfold_setup :=
  unfold run, bl2_platform_setup, ddr_mapping_and_security, call,
    mbind, mmodify, mret, panic, final_state in *.

Ltac split_setup :=
  repeat (cbn beta iota delta [app negb] in *;
          match goal with
          | |- context [match ?x with _ => _ end] =>
              lazymatch x with
              | context [match _ with _ => _ end] => fail
              | _ => destruct x eqn:?
              end
          end);
  cbn beta iota delta [app negb] in *.

Ltac setup_props :=
  repeat match goal with
         | H : (_ =? _) = true |- _ => apply Z.eqb_eq in H
         | H : (_ =? _) = false |- _ => apply Z.eqb_neq in H
         | H : (_ <? _) = true |- _ => apply Z.ltb_lt in H
         | H : (_ <? _) = false |- _ => apply Z.ltb_ge in H
         end.

(** X8: the setup returns exactly when the DDR probe succeeds, the
    device tree gives a non-zero DDR size and the mapping of the DDR
    succeeds; in every other case it halts. *)
Theorem setup_returns_iff (d : setup_def) (e : setup_env) :
  0 < EINVAL d ->
  ((exists tr, bl2_platform_setup d e [] = Done tt tr)
   <-> 0 <= stm32mp1_ddr_probe e
       /\ dt_get_ddr_size e <> 0
       /\ 0 <= mmap_add_dynamic_region e (STM32MP_DDR_BASE d) (STM32MP_DDR_BASE d)
                                        (dt_get_ddr_size e) (MT_MEMORY_RW_SECURE d)).
Proof.
  intros Herr. unfold_setup.
  destruct (stm32mp1_ddr_probe e <? 0) eqn:Hprobe;
    destruct (stm32mp1_ddr_is_restored e);
    destruct (dt_get_ddr_size e =? 0) eqn:Hsize;
    try destruct (0 <? dt_pmic_status e);
    cbn beta iota delta [app negb];
    try destruct (- EINVAL d <? 0) eqn:Hneg;
    try destruct (mmap_add_dynamic_region e _ _ _ _ <? 0) eqn:Hmap;
    setup_props;
    (split; [intros [tr Htr]; try discriminate; try lia; repeat split; auto
            | intros (H1 & H2 & H3); try lia; try contradiction; eexists; reflexivity]).
Qed.

Lemma setup_returns_iff_witness :
  (exists tr, bl2_platform_setup mp157 (ddr_env 0 false 0x20000000) [] = Done tt tr)
  <-> 0 <= stm32mp1_ddr_probe (ddr_env 0 false 0x20000000)
      /\ dt_get_ddr_size (ddr_env 0 false 0x20000000) <> 0
      /\ 0 <= mmap_add_dynamic_region (ddr_env 0 false 0x20000000)
                (STM32MP_DDR_BASE mp157) (STM32MP_DDR_BASE mp157)
                (dt_get_ddr_size (ddr_env 0 false 0x20000000))
                (MT_MEMORY_RW_SECURE mp157).
Proof. apply (setup_returns_iff mp157 (ddr_env 0 false 0x20000000)). reflexivity. Defined.

(** X9: when the DDR content was restored, the setup never clears a
    backup register, never cleans the saved context and never configures
    the PMIC. *)
Theorem restored_ddr_keeps_backup_state (d : setup_def) (e : setup_env) :
  stm32mp1_ddr_is_restored e = true ->
  existsb is_backup_write (run d e) = false.
Proof.
  intros Hr. unfold_setup. rewrite Hr. split_setup; reflexivity.
Qed.

Lemma restored_ddr_keeps_backup_state_witness :
  existsb is_backup_write (run mp157 (ddr_env 0 true 0x20000000)) = false.
Proof.
  apply (restored_ddr_keeps_backup_state mp157 (ddr_env 0 true 0x20000000)).
  reflexivity.
Defined.

(** X10: on a boot without restored DDR and with a successful probe, the
    core-1 branch address register is cleared, then the core-1 magic
    register, then the saved context, then the PMIC is configured if and
    only if the device tree has one; only after that may the DDR be
    mapped. *)
Theorem cold_boot_clears_backup_state (d : setup_def) (e : setup_env) :
  stm32mp1_ddr_is_restored e = false ->
  0 <= stm32mp1_ddr_probe e ->
  exists rest,
    run d e
    = [EvDdrProbe;
       EvMmioWrite32 (tamp_bkpr e (BOOT_API_CORE1_BRANCH_ADDRESS_TAMP_BCK_REG_IDX d)) 0;
       EvMmioWrite32 (tamp_bkpr e (BOOT_API_CORE1_MAGIC_NUMBER_TAMP_BCK_REG_IDX d)) 0;
       EvCleanContext]
      ++ (if 0 <? dt_pmic_status e then [EvConfigurePmic] else [])
      ++ rest
    /\ forallb is_mmap rest = true.
Proof.
  intros Hr Hprobe. apply Z.ltb_ge in Hprobe.
  unfold_setup. rewrite Hr, Hprobe. cbn beta iota delta [app negb].
  destruct (0 <? dt_pmic_status e); split_setup;
    eexists; (split; [reflexivity | reflexivity]).
Qed.

Lemma cold_boot_clears_backup_state_witness :
  exists rest,
    run mp157 (ddr_env 0 false 0x20000000)
    = [EvDdrProbe; EvMmioWrite32 (0x5C00A100 + 4 * 5) 0;
       EvMmioWrite32 (0x5C00A100 + 4 * 4) 0; EvCleanContext]
      ++ (if 0 <? 1 then [EvConfigurePmic] else [])
      ++ rest
    /\ forallb is_mmap rest = true.
Proof.
  apply (cold_boot_clears_backup_state mp157 (ddr_env 0 false 0x20000000));
    [reflexivity | simpl; lia].
Defined.

(** X11: a mapping is requested exactly when the probe succeeded and the
    DDR size is non-zero, and then it is the one identity mapping of the
    DDR base over the size the device tree gives: a zero size halts the
    boot with nothing mapped. *)
Theorem ddr_mapped_iff_sized (d : setup_def) (e : setup_env) :
  (existsb is_mmap (run d e) = true
   <-> 0 <= stm32mp1_ddr_probe e /\ dt_get_ddr_size e <> 0)
  /\ (forall pa va size attr,
        In (EvMmapAddDynamicRegion pa va size attr) (run d e) ->
        pa = STM32MP_DDR_BASE d /\ va = STM32MP_DDR_BASE d
        /\ size = dt_get_ddr_size e /\ attr = MT_MEMORY_RW_SECURE d).
Proof.
  unfold_setup.
  destruct (stm32mp1_ddr_probe e <? 0) eqn:Hprobe;
    destruct (stm32mp1_ddr_is_restored e);
    destruct (dt_get_ddr_size e =? 0) eqn:Hsize;
    split_setup; setup_props;
    cbn; intuition (try discriminate; try congruence; try lia).
Qed.

End PlatformSetupFacts.

(** ** The clock and voltage selection, further *)

Module ClockMore.
Import Clock.
Import ClockFacts.

(** Case analysis of a whole run on the tests of the environment. *)
Ltac clock_cases e :=
  unfold_clock;
  destruct (stm32mp1_is_wakeup_from_standby e) eqn:?;
  try destruct (stm32_get_pll1_settings_from_context e =? 0) eqn:?;
  destruct (fdt_is_pll1_predefined e) eqn:?;
  change (0 =? 0) with true;
  split_clock; eqb_to_prop.

(** X12: the frequency is applied at most once, and as the last thing a
    run does: nothing follows the call of [stm32mp1_clk_init]. *)
Theorem clk_init_is_last (e : clk_env) (i : nat) (f : Z) :
  run e !! i = Some (EvClkInit f) -> S i = length (run e).
Proof.
  clock_cases e; intros Hi;
    do 6 (try (destruct i as [|i]; simpl in Hi; try discriminate Hi));
    reflexivity.
Qed.

Lemma clk_init_is_last_witness : 4%nat = length (run (board false 0 1200)).
Proof.
  apply (clk_init_is_last (board false 0 1200) 3 1200000). reflexivity.
Defined.

(** X13: the procedure returns exactly when it reached
    [stm32mp1_clk_init] and that call did not fail; every other failure
    has halted the boot before any frequency was applied. *)
Theorem returns_iff_clock_applied (e : clk_env) :
  (exists tr, initialize_clock e [] = Done tt tr)
  <-> exists f, In (EvClkInit f) (run e) /\ 0 <= stm32mp1_clk_init e f.
Proof.
  clock_cases e;
    (split;
     [intros [tr Htr];
      first [discriminate Htr | eexists; split; [simpl; eauto 10 | lia]]
     |intros [f [Hin Hok]]; simpl in Hin;
      first [eexists; reflexivity
            |exfalso; intuition (try discriminate; try congruence);
             repeat match goal with
                    | H : EvClkInit _ = EvClkInit _ |- _ => injection H as H; subst
                    end; lia]]).
Qed.

(** X14: a boot that is not a wake-up from standby never reads the
    retained context: neither the saved PLL1 settings nor the restored
    operating points. *)
Theorem cold_boot_ignores_retained_context (e : clk_env) :
  stm32mp1_is_wakeup_from_standby e = false ->
  ~ In EvGetPll1SettingsFromContext (run e) /\ ~ In EvClkGetMaxfreqOpp (run e).
Proof.
  intros Hw. unfold_clock. rewrite Hw.
  destruct (fdt_is_pll1_predefined e); change (0 =? 0) with true;
    split_clock; cbn; intuition discriminate.
Qed.

Lemma cold_boot_ignores_retained_context_witness :
  ~ In EvGetPll1SettingsFromContext (run (board false 0 1200))
  /\ ~ In EvClkGetMaxfreqOpp (run (board false 0 1200)).
Proof.
  apply (cold_boot_ignores_retained_context (board false 0 1200)). reflexivity.
Defined.

(** X15: with PLL1 settings predefined in the device tree no operating
    point is searched and the regulator is neither read nor written; the
    clock driver is initialised with frequency 0. *)
Theorem predefined_pll1_skips_search (e : clk_env) :
  fdt_is_pll1_predefined e = true ->
  forall ev, In ev (run e) -> ev = EvGetPll1SettingsFromContext \/ ev = EvClkInit 0.
Proof.
  intros Hpre. unfold_clock. rewrite Hpre.
  destruct (stm32mp1_is_wakeup_from_standby e);
    try destruct (stm32_get_pll1_settings_from_context e =? 0);
    change (0 =? 0) with true; split_clock;
    intros ev Hin; simpl in Hin; intuition (subst; auto).
Qed.

Lemma predefined_pll1_skips_search_witness :
  EvClkInit 0 = EvGetPll1SettingsFromContext \/ EvClkInit 0 = EvClkInit 0.
Proof.
  apply (predefined_pll1_skips_search
           {| stm32mp1_is_wakeup_from_standby := false;
              stm32_get_pll1_settings_from_context := 0;
              fdt_is_pll1_predefined := true;
              stm32mp1_clk_get_maxfreq_opp := (0, 650000, 1200);
              dt_get_max_opp_freqvolt := (0, 1200000, 1350);
              dt_pmic_status := 1;
              stm32mp_get_cpu_supply_name := Some "buck1"%string;
              stpmic1_regulator_voltage_get := fun _ => 1200;
              stpmic1_regulator_voltage_set := fun _ _ => 0;
              stm32mp1_clk_init := fun _ => 0 |});
    [reflexivity | simpl; auto].
Defined.

(** X16: a failed search for the operating point is fatal: the boot
    halts with the regulator untouched and no frequency applied. *)
Theorem failed_search_is_fatal (e : clk_env) :
  (if stm32mp1_is_wakeup_from_standby e
   then stm32_get_pll1_settings_from_context e else 0) = 0 ->
  fdt_is_pll1_predefined e = false ->
  fst (fst (if stm32mp1_is_wakeup_from_standby e
            then stm32mp1_clk_get_maxfreq_opp e
            else dt_get_max_opp_freqvolt e)) <> 0 ->
  (exists tr, initialize_clock e [] = Halt PanicCalled tr)
  /\ forall ev, In ev (run e) -> is_opp_search ev = true \/ ev = EvGetPll1SettingsFromContext.
Proof.
  intros Hctx Hpre Hret. unfold_clock.
  destruct (stm32mp1_is_wakeup_from_standby e);
    rewrite ?Hctx, ?Hpre; change (0 =? 0) with true; reduce_clock;
    [destruct (stm32mp1_clk_get_maxfreq_opp e) as [[ret f] v]
    |destruct (dt_get_max_opp_freqvolt e) as [[ret f] v]];
    simpl in Hret; apply Z.eqb_neq in Hret; rewrite Hret; reduce_clock;
    (split; [eexists; reflexivity | intros ev Hin; simpl in Hin; intuition (subst; auto)]).
Qed.

Lemma failed_search_is_fatal_witness :
  (exists tr,
      initialize_clock
        {| stm32mp1_is_wakeup_from_standby := false;
           stm32_get_pll1_settings_from_context := 0;
           fdt_is_pll1_predefined := false;
           stm32mp1_clk_get_maxfreq_opp := (0, 650000, 1200);
           dt_get_max_opp_freqvolt := (-22, 0, 0);
           dt_pmic_status := 1;
           stm32mp_get_cpu_supply_name := Some "buck1"%string;
           stpmic1_regulator_voltage_get := fun _ => 1200;
           stpmic1_regulator_voltage_set := fun _ _ => 0;
           stm32mp1_clk_init := fun _ => 0 |} [] = Halt PanicCalled tr)
  /\ forall ev,
      In ev (run {| stm32mp1_is_wakeup_from_standby := false;
                    stm32_get_pll1_settings_from_context := 0;
                    fdt_is_pll1_predefined := false;
                    stm32mp1_clk_get_maxfreq_opp := (0, 650000, 1200);
                    dt_get_max_opp_freqvolt := (-22, 0, 0);
                    dt_pmic_status := 1;
                    stm32mp_get_cpu_supply_name := Some "buck1"%string;
                    stpmic1_regulator_voltage_get := fun _ => 1200;
                    stpmic1_regulator_voltage_set := fun _ _ => 0;
                    stm32mp1_clk_init := fun _ => 0 |}) ->
      is_opp_search ev = true \/ ev = EvGetPll1SettingsFromContext.
Proof.
  apply (failed_search_is_fatal
           {| stm32mp1_is_wakeup_from_standby := false;
              stm32_get_pll1_settings_from_context := 0;
              fdt_is_pll1_predefined := false;
              stm32mp1_clk_get_maxfreq_opp := (0, 650000, 1200);
              dt_get_max_opp_freqvolt := (-22, 0, 0);
              dt_pmic_status := 1;
              stm32mp_get_cpu_supply_name := Some "buck1"%string;
              stpmic1_regulator_voltage_get := fun _ => 1200;
              stpmic1_regulator_voltage_set := fun _ _ => 0;
              stm32mp1_clk_init := fun _ => 0 |});
    [reflexivity | reflexivity | discriminate].
Defined.

(** X17: without a PMIC in the device tree ([dt_pmic_status() <= 0]) the
    regulator is neither read nor written. *)
Theorem no_pmic_no_regulator_access (e : clk_env) :
  dt_pmic_status e <= 0 ->
  forall name mv,
    ~ In (EvRegulatorVoltageGet name) (run e)
    /\ ~ In (EvRegulatorVoltageSet name mv) (run e).
Proof.
  intros Hpmic name mv. apply Z.ltb_ge in Hpmic.
  unfold_clock. rewrite Hpmic.
  destruct (stm32mp1_is_wakeup_from_standby e);
    try destruct (stm32_get_pll1_settings_from_context e =? 0);
    destruct (fdt_is_pll1_predefined e);
    change (0 =? 0) with true; split_clock;
    cbn; intuition discriminate.
Qed.

Lemma no_pmic_no_regulator_access_witness :
  ~ In (EvRegulatorVoltageGet "buck1")
       (run {| stm32mp1_is_wakeup_from_standby := false;
              stm32_get_pll1_settings_from_context := 0;
              fdt_is_pll1_predefined := false;
              stm32mp1_clk_get_maxfreq_opp := (0, 650000, 1200);
              dt_get_max_opp_freqvolt := (0, 1200000, 1350);
              dt_pmic_status := 0;
              stm32mp_get_cpu_supply_name := None;
              stpmic1_regulator_voltage_get := fun _ => 1200;
              stpmic1_regulator_voltage_set := fun _ _ => 0;
              stm32mp1_clk_init := fun _ => 0 |})
  /\ ~ In (EvRegulatorVoltageSet "buck1" 1350)
          (run {| stm32mp1_is_wakeup_from_standby := false;
              stm32_get_pll1_settings_from_context := 0;
              fdt_is_pll1_predefined := false;
              stm32mp1_clk_get_maxfreq_opp := (0, 650000, 1200);
              dt_get_max_opp_freqvolt := (0, 1200000, 1350);
              dt_pmic_status := 0;
              stm32mp_get_cpu_supply_name := None;
              stpmic1_regulator_voltage_get := fun _ => 1200;
              stpmic1_regulator_voltage_set := fun _ _ => 0;
              stm32mp1_clk_init := fun _ => 0 |}).
Proof.
  apply (no_pmic_no_regulator_access
           {| stm32mp1_is_wakeup_from_standby := false;
              stm32_get_pll1_settings_from_context := 0;
              fdt_is_pll1_predefined := false;
              stm32mp1_clk_get_maxfreq_opp := (0, 650000, 1200);
              dt_get_max_opp_freqvolt := (0, 1200000, 1350);
              dt_pmic_status := 0;
              stm32mp_get_cpu_supply_name := None;
              stpmic1_regulator_voltage_get := fun _ => 1200;
              stpmic1_regulator_voltage_set := fun _ _ => 0;
              stm32mp1_clk_init := fun _ => 0 |}).
  simpl. lia.
Defined.



(** X19: a failing regulator is fatal before the clock is touched: with a
    PMIC present and the block entered after a successful search, a NULL
    supply name, a failed read or a failed write halts the boot and no
    frequency is applied. *)
Theorem regulator_failure_is_fatal (e : clk_env) (freq_khz voltage_mv : Z) :
  0 < dt_pmic_status e ->
  (if stm32mp1_is_wakeup_from_standby e
   then stm32_get_pll1_settings_from_context e else 0) = 0 ->
  fdt_is_pll1_predefined e = false ->
  (if stm32mp1_is_wakeup_from_standby e
   then stm32mp1_clk_get_maxfreq_opp e
   else dt_get_max_opp_freqvolt e) = (0, freq_khz, voltage_mv) ->
  match stm32mp_get_cpu_supply_name e with
  | None => True
  | Some name =>
      stpmic1_regulator_voltage_get e name < 0
      \/ (voltage_mv <> u32 (stpmic1_regulator_voltage_get e name)
          /\ stpmic1_regulator_voltage_set e name (u16 voltage_mv) <> 0)
  end ->
  (exists tr, initialize_clock e [] = Halt PanicCalled tr)
  /\ forall f, ~ In (EvClkInit f) (run e).
Proof.
  intros Hpmic Hctx Hpre Hfound Hfail. apply Z.ltb_lt in Hpmic.
  unfold_clock.
  destruct (stm32mp1_is_wakeup_from_standby e);
    rewrite ?Hctx, ?Hpre, ?Hfound; reduce_clock;
    rewrite ?Hctx, ?Hpre, ?Hfound; reduce_clock;
    change (0 =? 0) with true; reduce_clock;
    rewrite Hpmic;
    destruct (stm32mp_get_cpu_supply_name e) as [name|]; reduce_clock;
    try (split; [eexists; reflexivity | intros f Hin; simpl in Hin; intuition discriminate]);
    destruct (stpmic1_regulator_voltage_get e name <? 0) eqn:Hneg; reduce_clock;
    try (split; [eexists; reflexivity | intros f Hin; simpl in Hin; intuition discriminate]);
    apply Z.ltb_ge in Hneg;
    (destruct Hfail as [Hlt|[Hne Hset]]; [lia|]);
    apply Z.eqb_neq in Hne; apply Z.eqb_neq in Hset;
    rewrite Hne; reduce_clock; rewrite Hset; reduce_clock;
    (split; [eexists; reflexivity | intros f Hin; simpl in Hin; intuition discriminate]).
Qed.

Lemma regulator_failure_is_fatal_witness :
  (exists tr, initialize_clock (board false 0 (-5)) [] = Halt PanicCalled tr)
  /\ forall f, ~ In (EvClkInit f) (run (board false 0 (-5))).
Proof.
  apply (regulator_failure_is_fatal (board false 0 (-5)) 1200000 1350);
    simpl; try reflexivity; try lia.
Defined.

End ClockMore.

(** ** The post-load image resolver, further *)

Module PostLoadMore.
Import PostLoad.
Import PostLoadViews.
Import PostLoadFacts.

(** *** The fw_config case as a whole *)

(** The BL32 turn is the only one that writes the two OP-TEE sub-image
    nodes. *)
Lemma fw_config_image_extras
      (pd : platform_def) (e : plat_env) (w : bool) (id : Z) (s : plat_state) :
  ids_distinct pd -> table_complete pd s -> id ∈ image_ids pd ->
  exists s',
    fw_config_image pd e w id s = Done None s'
    /\ bl_mem_params_desc s' !! BL32_EXTRA1_IMAGE_ID pd
       = (if decide (id = BL32_IMAGE_ID pd)
          then pager_node_update pd e <$> bl_mem_params_desc s !! BL32_EXTRA1_IMAGE_ID pd
          else bl_mem_params_desc s !! BL32_EXTRA1_IMAGE_ID pd)
    /\ bl_mem_params_desc s' !! BL32_EXTRA2_IMAGE_ID pd
       = (if decide (id = BL32_IMAGE_ID pd)
          then paged_node_update pd e <$> bl_mem_params_desc s !! BL32_EXTRA2_IMAGE_ID pd
          else bl_mem_params_desc s !! BL32_EXTRA2_IMAGE_ID pd).
Proof.
  intros Hd Hc Hin. split_distinct Hd.
  assert (is_Some (bl_mem_params_desc s !! BL32_IMAGE_ID pd)) as [n32 H32]
      by (apply Hc; rewrite !elem_of_cons; auto 10).
  assert (is_Some (bl_mem_params_desc s !! BL32_EXTRA1_IMAGE_ID pd)) as [nx1 Hx1]
      by (apply Hc; rewrite !elem_of_cons; auto 10).
  assert (is_Some (bl_mem_params_desc s !! BL32_EXTRA2_IMAGE_ID pd)) as [nx2 Hx2]
      by (apply Hc; rewrite !elem_of_cons; auto 10).
  assert (is_Some (bl_mem_params_desc s !! BL33_IMAGE_ID pd)) as [n33 H33]
      by (apply Hc; rewrite !elem_of_cons; auto 10).
  assert (is_Some (bl_mem_params_desc s !! HW_CONFIG_ID pd)) as [nhw Hhw]
      by (apply Hc; rewrite !elem_of_cons; auto 10).
  assert (is_Some (bl_mem_params_desc s !! TOS_FW_CONFIG_ID pd)) as [ntos Htos]
      by (apply Hc; rewrite !elem_of_cons; auto 10).
  unfold image_ids in Hin.
  repeat (apply elem_of_cons in Hin as [-> | Hin]); [| | | | by apply elem_of_nil in Hin].
  all: unfold fw_config_image, pager_node_update, paged_node_update.
  all: destruct (decide (_ = BL32_IMAGE_ID pd)) as [Heq|Hne]; try congruence.
  all: destruct (dyn_cfg_dtb_getter e _) as [ci|] eqn:Hcfg; rewrite ?Hcfg.
  all: decide_ids.
  all: try destruct (negb _).
  all: try destruct w.
  all: eexists; split; [run_table; reflexivity|].
  all: split.
  all: repeat first [ rewrite lookup_upd_eq
                    | rewrite lookup_upd_ne by congruence ].
  all: try match goal with
           | H : bl_mem_params_desc ?s0 !! ?k = Some _
             |- context [bl_mem_params_desc ?s0 !! ?k] => rewrite H
           end.
  all: reflexivity.
Qed.

Lemma fw_config_loop_extras
      (pd : platform_def) (e : plat_env) (w : bool) (ids : list Z) :
  ids_distinct pd -> NoDup ids -> (forall k, k ∈ ids -> k ∈ image_ids pd) ->
  forall s, table_complete pd s ->
  exists s',
    fw_config_loop pd e w ids s = Done None s'
    /\ bl_mem_params_desc s' !! BL32_EXTRA1_IMAGE_ID pd
       = (if decide (BL32_IMAGE_ID pd ∈ ids)
          then pager_node_update pd e <$> bl_mem_params_desc s !! BL32_EXTRA1_IMAGE_ID pd
          else bl_mem_params_desc s !! BL32_EXTRA1_IMAGE_ID pd)
    /\ bl_mem_params_desc s' !! BL32_EXTRA2_IMAGE_ID pd
       = (if decide (BL32_IMAGE_ID pd ∈ ids)
          then paged_node_update pd e <$> bl_mem_params_desc s !! BL32_EXTRA2_IMAGE_ID pd
          else bl_mem_params_desc s !! BL32_EXTRA2_IMAGE_ID pd).
Proof.
  intros Hd Hnd Hsub. induction ids as [|id rest IH]; intros s Hc.
  - exists s. split; [reflexivity|].
    destruct (decide (BL32_IMAGE_ID pd ∈ [])) as [Hin|_];
      [by apply elem_of_nil in Hin | split; reflexivity].
  - apply NoDup_cons in Hnd as [Hfresh Hnd].
    assert (id ∈ image_ids pd) as Hid by (apply Hsub; apply elem_of_cons; left; reflexivity).
    destruct (fw_config_image_in_set pd e w id s Hd Hc Hid) as (s1 & Hrun & _ & Hdom & _).
    destruct (fw_config_image_extras pd e w id s Hd Hc Hid) as (s1' & Hrun' & Hx1 & Hx2).
    assert (s1' = s1) as -> by congruence.
    destruct (IH Hnd) with (s := s1) as (s' & Hloop & Hy1 & Hy2).
    { intros k Hk. apply Hsub. apply elem_of_cons. right. exact Hk. }
    { intros k Hk. apply Hdom. apply Hc. exact Hk. }
    exists s'. split; [simpl; unfold mbind; rewrite Hrun; exact Hloop|].
    rewrite Hy1, Hy2, Hx1, Hx2.
    destruct (decide (id = BL32_IMAGE_ID pd)) as [->|Hne].
    + destruct (decide (BL32_IMAGE_ID pd ∈ rest)) as [Hin|_]; [contradiction|].
      destruct (decide (BL32_IMAGE_ID pd ∈ BL32_IMAGE_ID pd :: rest)) as [_|Hout];
        [split; reflexivity|].
      exfalso. apply Hout. apply elem_of_cons. left. reflexivity.
    + destruct (decide (BL32_IMAGE_ID pd ∈ rest)) as [Hin|Hout];
        destruct (decide (BL32_IMAGE_ID pd ∈ id :: rest)) as [Hin'|Hout'];
        try (split; reflexivity).
      * exfalso. apply Hout'. apply elem_of_cons. right. exact Hin.
      * exfalso. apply elem_of_cons in Hin' as [Heq|Hin']; [congruence | contradiction].
Qed.

(** The whole of [case FW_CONFIG_ID], node by node. *)
Lemma fw_config_case_full
      (pd : platform_def) (e : plat_env) (s : plat_state) :
  ids_distinct pd -> STM32MP_USE_STM32IMAGE pd = false ->
  table_complete pd s -> is_Some (bl_mem_params_desc s !! FW_CONFIG_ID pd) ->
  exists s',
    bl2_plat_handle_post_image_load pd e (FW_CONFIG_ID pd) s = Done 0 s'
    /\ effects s' = effects (fw_config_entered pd s)
    /\ (forall k, k <> BL32_EXTRA1_IMAGE_ID pd -> k <> BL32_EXTRA2_IMAGE_ID pd ->
                  bl_mem_params_desc s' !! k
                  = if decide (k ∈ image_ids pd)
                    then fw_config_node_update pd e (stm32mp1_ddr_is_restored e) k
                           <$> bl_mem_params_desc s !! k
                    else bl_mem_params_desc s !! k)
    /\ bl_mem_params_desc s' !! BL32_EXTRA1_IMAGE_ID pd
       = pager_node_update pd e <$> bl_mem_params_desc s !! BL32_EXTRA1_IMAGE_ID pd
    /\ bl_mem_params_desc s' !! BL32_EXTRA2_IMAGE_ID pd
       = paged_node_update pd e <$> bl_mem_params_desc s !! BL32_EXTRA2_IMAGE_ID pd.
Proof.
  intros Hd Himg Hc [nfw Hfw].
  assert (table_complete pd (fw_config_entered pd s)) as Hc0
      by (intros k Hk; apply (Hc k Hk)).
  destruct (fw_config_loop_in_set pd e (stm32mp1_ddr_is_restored e) (image_ids pd)
              Hd (image_ids_NoDup pd Hd) (fun k H => H) (fw_config_entered pd s) Hc0)
    as (s' & Hrun & Hef & Hlk).
  destruct (fw_config_loop_extras pd e (stm32mp1_ddr_is_restored e) (image_ids pd)
              Hd (image_ids_NoDup pd Hd) (fun k H => H) (fw_config_entered pd s) Hc0)
    as (s'' & Hrun' & Hx1 & Hx2).
  assert (s'' = s') as -> by congruence.
  exists s'. split; [|split; [exact Hef | split; [exact Hlk|]]].
  - unfold bl2_plat_handle_post_image_load, fw_config_case.
    rewrite Himg, andb_false_r, Z.eqb_refl.
    run_table. cbn [bl_mem_params_desc effects].
    change {| bl_mem_params_desc := bl_mem_params_desc s;
              effects := (effects s ++ _) ++ _ |} with (fw_config_entered pd s).
    unfold mbind. rewrite Hrun. reflexivity.
  - destruct (decide (BL32_IMAGE_ID pd ∈ image_ids pd)) as [_|Hout].
    + split; [exact Hx1 | exact Hx2].
    + exfalso. apply Hout. unfold image_ids. apply elem_of_cons. left. reflexivity.
Qed.

(** X20: when the fw_config describes BL32, the fw_config case seeds the
    entry point of BL32 with the configured address, gives the pager
    sub-image the same base and size, and places the paged sub-image at
    [DDR base + (DDR size - secure size)] with the secure size, wherever
    BL32 itself goes. *)
Theorem fw_config_places_optee_parts
        (pd : platform_def) (e : plat_env) (s : plat_state)
        (n32 nx1 nx2 : bl_mem_params_node_t) (ci : dyn_cfg_dtb_info_t) :
  ids_distinct pd -> STM32MP_USE_STM32IMAGE pd = false ->
  table_complete pd s -> is_Some (bl_mem_params_desc s !! FW_CONFIG_ID pd) ->
  bl_mem_params_desc s !! BL32_IMAGE_ID pd = Some n32 ->
  bl_mem_params_desc s !! BL32_EXTRA1_IMAGE_ID pd = Some nx1 ->
  bl_mem_params_desc s !! BL32_EXTRA2_IMAGE_ID pd = Some nx2 ->
  dyn_cfg_dtb_getter e (BL32_IMAGE_ID pd) = Some ci ->
  exists s' n32' nx1' nx2',
    bl2_plat_handle_post_image_load pd e (FW_CONFIG_ID pd) s = Done 0 s'
    /\ bl_mem_params_desc s' !! BL32_IMAGE_ID pd = Some n32'
    /\ bl_mem_params_desc s' !! BL32_EXTRA1_IMAGE_ID pd = Some nx1'
    /\ bl_mem_params_desc s' !! BL32_EXTRA2_IMAGE_ID pd = Some nx2'
    /\ pc (ep_info n32') = config_addr ci
    /\ image_base (image_info nx1') = config_addr ci
    /\ image_max_size (image_info nx1') = config_max_size ci
    /\ image_base (image_info nx2')
       = u32 (STM32MP_DDR_BASE pd + u32 (dt_get_ddr_size e - STM32MP_DDR_S_SIZE pd))
    /\ image_max_size (image_info nx2') = STM32MP_DDR_S_SIZE pd
    /\ h_attr (image_info nx1') = h_attr (image_info nx1)
    /\ h_attr (image_info nx2') = h_attr (image_info nx2)
    /\ ep_info nx1' = ep_info nx1 /\ ep_info nx2' = ep_info nx2.
Proof.
  intros Hd Himg Hc Hfw H32 Hx1 Hx2 Hcfg.
  destruct (fw_config_case_full pd e s Hd Himg Hc Hfw) as (s' & Hrun & _ & Hlk & Hy1 & Hy2).
  assert (BL32_IMAGE_ID pd ∈ image_ids pd) as Hin
      by (unfold image_ids; apply elem_of_cons; left; reflexivity).
  destruct (image_ids_not_extra pd _ Hd Hin) as (Hk1 & Hk2 & _).
  specialize (Hlk _ Hk1 Hk2).
  destruct (decide (BL32_IMAGE_ID pd ∈ image_ids pd)) as [_|Hout]; [|contradiction].
  rewrite H32 in Hlk. rewrite Hx1 in Hy1. rewrite Hx2 in Hy2.
  exists s'. do 3 eexists.
  split; [exact Hrun|]. split; [exact Hlk|]. split; [exact Hy1|]. split; [exact Hy2|].
  unfold fw_config_node_update, pager_node_update, paged_node_update.
  rewrite Hcfg, Z.eqb_refl.
  destruct (negb _); cbn; repeat split; reflexivity.
Qed.

Lemma fw_config_places_optee_parts_witness :
  exists s' n32' nx1' nx2',
    bl2_plat_handle_post_image_load fip_build (boot_env false false 0) 31
                                    (boot_table 0x20000 0x1000) = Done 0 s'
    /\ bl_mem_params_desc s' !! 4 = Some n32'
    /\ bl_mem_params_desc s' !! 21 = Some nx1'
    /\ bl_mem_params_desc s' !! 22 = Some nx2'
    /\ pc (ep_info n32') = 0x2FFC0000
    /\ image_base (image_info nx1') = 0x2FFC0000
    /\ image_max_size (image_info nx1') = 0x20000
    /\ image_base (image_info nx2') = u32 (0xC0000000 + u32 (0x20000000 - 0x01E00000))
    /\ image_max_size (image_info nx2') = 0x01E00000
    /\ h_attr (image_info nx1') = 2
    /\ h_attr (image_info nx2') = 2
    /\ ep_info nx1' = ep_info (node 2 0 0) /\ ep_info nx2' = ep_info (node 2 0 0).
Proof.
  apply (fw_config_places_optee_parts
           fip_build (boot_env false false 0) (boot_table 0x20000 0x1000)
           (node 2 0x2FFC0000 0x20000) (node 2 0 0) (node 2 0 0)
           {| config_addr := 0x2FFC0000; config_max_size := 0x20000 |});
    by_evaluation.
Defined.

(** X21: for each image of the loop that the fw_config describes, the
    fw_config case overwrites the base and the maximum size of its
    descriptor with the configured ones and leaves its entry arguments
    and link register alone. *)
Theorem fw_config_overrides_region
        (pd : platform_def) (e : plat_env) (s : plat_state)
        (id : Z) (n : bl_mem_params_node_t) (ci : dyn_cfg_dtb_info_t) :
  ids_distinct pd -> STM32MP_USE_STM32IMAGE pd = false ->
  table_complete pd s -> is_Some (bl_mem_params_desc s !! FW_CONFIG_ID pd) ->
  id ∈ image_ids pd ->
  bl_mem_params_desc s !! id = Some n ->
  dyn_cfg_dtb_getter e id = Some ci ->
  exists s' n',
    bl2_plat_handle_post_image_load pd e (FW_CONFIG_ID pd) s = Done 0 s'
    /\ bl_mem_params_desc s' !! id = Some n'
    /\ image_base (image_info n') = config_addr ci
    /\ image_max_size (image_info n') = config_max_size ci
    /\ args (ep_info n') = args (ep_info n)
    /\ lr_svc (ep_info n') = lr_svc (ep_info n).
Proof.
  intros Hd Himg Hc Hfw Hin Hn Hcfg.
  destruct (fw_config_case_full pd e s Hd Himg Hc Hfw) as (s' & Hrun & _ & Hlk & _).
  destruct (image_ids_not_extra pd _ Hd Hin) as (Hk1 & Hk2 & _).
  specialize (Hlk _ Hk1 Hk2).
  destruct (decide (id ∈ image_ids pd)) as [_|Hout]; [|contradiction].
  rewrite Hn in Hlk.
  exists s'. eexists. split; [exact Hrun|]. split; [exact Hlk|].
  unfold fw_config_node_update. rewrite Hcfg.
  destruct (negb _); destruct (id =? BL32_IMAGE_ID pd);
    try destruct (id =? BL33_IMAGE_ID pd); cbn; repeat split; reflexivity.
Qed.

Lemma fw_config_overrides_region_witness :
  exists s' n',
    bl2_plat_handle_post_image_load fip_build (boot_env false false 0) 31
                                    (boot_table 0x20000 0x1000) = Done 0 s'
    /\ bl_mem_params_desc s' !! 23 = Some n'
    /\ image_base (image_info n') = 0xC0200000
    /\ image_max_size (image_info n') = 0x20000
    /\ args (ep_info n') = args (ep_info (node 2 0xC0200000 0x20000))
    /\ lr_svc (ep_info n') = lr_svc (ep_info (node 2 0xC0200000 0x20000)).
Proof.
  apply (fw_config_overrides_region
           fip_build (boot_env false false 0) (boot_table 0x20000 0x1000) 23
           (node 2 0xC0200000 0x20000)
           {| config_addr := 0xC0200000; config_max_size := 0x20000 |});
    by_evaluation.
Defined.

(** X22: an image of the loop that the fw_config does not describe is
    skipped: its descriptor, skip-loading attribute included, is the one
    on entry, even on a cold boot. *)
Theorem fw_config_skips_undescribed_image
        (pd : platform_def) (e : plat_env) (s : plat_state) (id : Z) :
  ids_distinct pd -> STM32MP_USE_STM32IMAGE pd = false ->
  table_complete pd s -> is_Some (bl_mem_params_desc s !! FW_CONFIG_ID pd) ->
  id ∈ image_ids pd ->
  dyn_cfg_dtb_getter e id = None ->
  exists s',
    bl2_plat_handle_post_image_load pd e (FW_CONFIG_ID pd) s = Done 0 s'
    /\ bl_mem_params_desc s' !! id = bl_mem_params_desc s !! id.
Proof.
  intros Hd Himg Hc Hfw Hin Hcfg.
  destruct (fw_config_case_full pd e s Hd Himg Hc Hfw) as (s' & Hrun & _ & Hlk & _).
  destruct (image_ids_not_extra pd _ Hd Hin) as (Hk1 & Hk2 & _).
  specialize (Hlk _ Hk1 Hk2).
  destruct (decide (id ∈ image_ids pd)) as [_|Hout]; [|contradiction].
  exists s'. split; [exact Hrun|]. rewrite Hlk.
  unfold fw_config_node_update. rewrite Hcfg.
  destruct (bl_mem_params_desc s !! id); reflexivity.
Qed.

Lemma fw_config_skips_undescribed_image_witness :
  exists s',
    bl2_plat_handle_post_image_load fip_build (boot_env false false 0) 31
                                    (boot_table 0x20000 0x1000) = Done 0 s'
    /\ bl_mem_params_desc s' !! 26
       = bl_mem_params_desc (boot_table 0x20000 0x1000) !! 26.
Proof.
  apply (fw_config_skips_undescribed_image
           fip_build (boot_env false false 0) (boot_table 0x20000 0x1000) 26);
    by_evaluation.
Defined.

(** X23: with the identifiers the source lists, the fw_config case
    always returns 0, never [-EINVAL]; outside the table it only sets and
    populates the fw_config, and every descriptor other than those of
    BL32, BL33, HW_CONFIG, TOS_FW_CONFIG and the two OP-TEE sub-images is
    left as it was. *)
Theorem fw_config_frame
        (pd : platform_def) (e : plat_env) (s : plat_state) :
  ids_distinct pd -> STM32MP_USE_STM32IMAGE pd = false ->
  table_complete pd s -> is_Some (bl_mem_params_desc s !! FW_CONFIG_ID pd) ->
  exists s',
    bl2_plat_handle_post_image_load pd e (FW_CONFIG_ID pd) s = Done 0 s'
    /\ effects s'
       = effects s ++ [EvSetConfigInfo (STM32MP_FW_CONFIG_BASE pd)
                                       (STM32MP_FW_CONFIG_MAX_SIZE pd) (FW_CONFIG_ID pd);
                       EvFconfPopulate "FW_CONFIG" (STM32MP_FW_CONFIG_BASE pd)]
    /\ (forall k, k ∉ image_ids pd ->
                  k <> BL32_EXTRA1_IMAGE_ID pd -> k <> BL32_EXTRA2_IMAGE_ID pd ->
                  bl_mem_params_desc s' !! k = bl_mem_params_desc s !! k).
Proof.
  intros Hd Himg Hc Hfw.
  destruct (fw_config_case_full pd e s Hd Himg Hc Hfw) as (s' & Hrun & Hef & Hlk & _).
  exists s'. split; [exact Hrun|]. split.
  - rewrite Hef. unfold fw_config_entered. simpl. rewrite <- app_assoc. reflexivity.
  - intros k Hout Hk1 Hk2. rewrite (Hlk k Hk1 Hk2).
    destruct (decide (k ∈ image_ids pd)) as [Hin|_]; [contradiction | reflexivity].
Qed.

Lemma fw_config_frame_witness :
  exists s',
    bl2_plat_handle_post_image_load fip_build (boot_env false false 0) 31
                                    (boot_table 0x20000 0x1000) = Done 0 s'
    /\ effects s'
       = [] ++ [EvSetConfigInfo 0x2FFD0000 0x1000 31; EvFconfPopulate "FW_CONFIG" 0x2FFD0000]
    /\ (forall k, k ∉ image_ids fip_build -> k <> 21 -> k <> 22 ->
                  bl_mem_params_desc s' !! k
                  = bl_mem_params_desc (boot_table 0x20000 0x1000) !! k).
Proof.
  apply (fw_config_frame fip_build (boot_env false false 0) (boot_table 0x20000 0x1000));
    by_evaluation.
Defined.

(** *** The other cases of the resolver *)

(** X24: for an image that is neither BL32 nor BL33 (nor, in the FIP
    build, the fw_config) the resolver returns 0 and leaves the table as
    it is; its only effect is the deletion of the loaded header in a
    trusted-boot STM32IMAGE build. *)
Theorem other_image_is_left_alone
        (pd : platform_def) (e : plat_env) (image_id : Z)
        (n : bl_mem_params_node_t) (s : plat_state) :
  bl_mem_params_desc s !! image_id = Some n ->
  image_id <> BL32_IMAGE_ID pd -> image_id <> BL33_IMAGE_ID pd ->
  STM32MP_USE_STM32IMAGE pd = true \/ image_id <> FW_CONFIG_ID pd ->
  bl2_plat_handle_post_image_load pd e image_id s
  = Done 0 {| bl_mem_params_desc := bl_mem_params_desc s;
              effects := effects s
                         ++ (if TRUSTED_BOARD_BOOT pd && STM32MP_USE_STM32IMAGE pd
                             then [EvDeleteLoadedHeader] else []) |}.
Proof.
  intros Hn H32 H33 Hfw. unfold bl2_plat_handle_post_image_load.
  rewrite (proj2 (Z.eqb_neq _ _) H32), (proj2 (Z.eqb_neq _ _) H33).
  assert (negb (STM32MP_USE_STM32IMAGE pd) && (image_id =? FW_CONFIG_ID pd) = false) as ->.
  { destruct Hfw as [-> | Hne]; [reflexivity|].
    rewrite (proj2 (Z.eqb_neq _ _) Hne). apply andb_false_r. }
  run_table.
  destruct (TRUSTED_BOARD_BOOT pd && STM32MP_USE_STM32IMAGE pd); run_table.
  - reflexivity.
  - unfold mret. rewrite app_nil_r. destruct s; reflexivity.
Qed.

Lemma other_image_is_left_alone_witness :
  bl2_plat_handle_post_image_load fip_build (boot_env false false 0) 23
                                  (boot_table 0x20000 0x1000)
  = Done 0 {| bl_mem_params_desc := bl_mem_params_desc (boot_table 0x20000 0x1000);
              effects := [] ++ [] |}.
Proof.
  apply (other_image_is_left_alone
           fip_build (boot_env false false 0) 23 (node 2 0xC0200000 0x20000)
           (boot_table 0x20000 0x1000));
    try by_evaluation.
  right. by_evaluation.
Defined.

(** X25: for BL33 the resolver returns 0, writes the entry point of BL33
    into the link register of BL32 and nothing else into the table, and
    flushes the data cache over the base and maximum size of BL33. *)
Theorem bl33_links_bl32_and_flushes
        (pd : platform_def) (e : plat_env) (s : plat_state)
        (n33 n32 : bl_mem_params_node_t) :
  bl_mem_params_desc s !! BL33_IMAGE_ID pd = Some n33 ->
  bl_mem_params_desc s !! BL32_IMAGE_ID pd = Some n32 ->
  BL33_IMAGE_ID pd <> BL32_IMAGE_ID pd ->
  STM32MP_USE_STM32IMAGE pd = true \/ BL33_IMAGE_ID pd <> FW_CONFIG_ID pd ->
  exists s',
    bl2_plat_handle_post_image_load pd e (BL33_IMAGE_ID pd) s = Done 0 s'
    /\ bl_mem_params_desc s'
       = <[BL32_IMAGE_ID pd := set_lr_svc (pc (ep_info n33)) n32]> (bl_mem_params_desc s)
    /\ effects s'
       = effects s
         ++ (if TRUSTED_BOARD_BOOT pd && STM32MP_USE_STM32IMAGE pd
             then [EvDeleteLoadedHeader] else [])
         ++ [EvFlushDcacheRange (image_base (image_info n33))
                                (image_max_size (image_info n33))].
Proof.
  intros H33 H32 Hne Hfw. unfold bl2_plat_handle_post_image_load, bl33_case.
  rewrite (proj2 (Z.eqb_neq _ _) Hne), Z.eqb_refl.
  assert (negb (STM32MP_USE_STM32IMAGE pd) && (BL33_IMAGE_ID pd =? FW_CONFIG_ID pd) = false)
    as ->.
  { destruct Hfw as [-> | Hne']; [reflexivity|].
    rewrite (proj2 (Z.eqb_neq _ _) Hne'). apply andb_false_r. }
  run_table.
  destruct (TRUSTED_BOARD_BOOT pd && STM32MP_USE_STM32IMAGE pd); run_table;
    cbn [bl_mem_params_desc]; run_table;
    eexists; (split; [reflexivity|]); cbn [bl_mem_params_desc effects upd];
    (split; [reflexivity|]); rewrite <- ?app_assoc; reflexivity.
Qed.

Lemma bl33_links_bl32_and_flushes_witness :
  exists s',
    bl2_plat_handle_post_image_load fip_build (boot_env false false 0) 5
                                    (boot_table 0x20000 0x1000) = Done 0 s'
    /\ bl_mem_params_desc s'
       = <[4 := set_lr_svc 0 (node 2 0x2FFC0000 0x20000)]>
           (bl_mem_params_desc (boot_table 0x20000 0x1000))
    /\ effects s' = [] ++ [] ++ [EvFlushDcacheRange 0xC0100000 0x100000].
Proof.
  apply (bl33_links_bl32_and_flushes
           fip_build (boot_env false false 0) (boot_table 0x20000 0x1000)
           (node 2 0xC0100000 0x100000) (node 2 0x2FFC0000 0x20000));
    try by_evaluation.
  right. by_evaluation.
Defined.

(** *** The secure-OS case *)

(** Run on, looking through the state a logged call leaves. *)
Ltac find_node :=
  repeat first [ rewrite lookup_upd_eq
               | rewrite lookup_upd_ne by congruence
               | progress cbn [bl_mem_params_desc] ];
  first [ reflexivity | eassumption ].

Ltac run_on_step :=
  first [ rewrite bind_assoc
        | erewrite bind_get_node by find_node
        | erewrite bind_store by find_node
        | erewrite bind_load by find_node
        | rewrite bind_assert_true
        | rewrite bind_mret
        | rewrite bind_call
        | erewrite run_store by find_node ].

Ltac run_on :=
  cbn beta iota delta [is_null negb andb orb];
  repeat (run_on_step; cbn beta iota delta [is_null negb andb orb]).

Ltac enter_bl32 Himg Hne :=
  unfold bl2_plat_handle_post_image_load, bl32_case, bl32_save_context;
  rewrite Himg, andb_false_r, orb_true_r; simpl negb;
  rewrite (proj2 (Z.eqb_neq _ _) Hne), Z.eqb_refl;
  run_table.

(** X26: on a boot without restored DDR, a BL32 with an OP-TEE header
    whose parsing fails halts the boot, once the parser has been called. *)
Theorem optee_parse_error_is_fatal
        (pd : platform_def) (e : plat_env) (s : plat_state)
        (n nx1 nx2 : bl_mem_params_node_t) :
  STM32MP_USE_STM32IMAGE pd = false ->
  BL32_IMAGE_ID pd <> FW_CONFIG_ID pd ->
  BL32_IMAGE_ID pd <> BL32_EXTRA1_IMAGE_ID pd ->
  BL32_IMAGE_ID pd <> BL32_EXTRA2_IMAGE_ID pd ->
  BL32_EXTRA1_IMAGE_ID pd <> BL32_EXTRA2_IMAGE_ID pd ->
  bl_mem_params_desc s !! BL32_IMAGE_ID pd = Some n ->
  bl_mem_params_desc s !! BL32_EXTRA1_IMAGE_ID pd = Some nx1 ->
  bl_mem_params_desc s !! BL32_EXTRA2_IMAGE_ID pd = Some nx2 ->
  header_valid e n = true ->
  stm32mp1_ddr_is_restored e = false ->
  fst (fst (fst (parse_optee_header e (ep_info (set_pc (header_pc e n) n))
                                    (image_info nx1) (image_info nx2)))) <> 0 ->
  exists s',
    bl2_plat_handle_post_image_load pd e (BL32_IMAGE_ID pd) s = Halt PanicCalled s'
    /\ effects s' = effects s ++ [EvParseOpteeHeader].
Proof.
  intros Himg Hne H1 H2 H12 Hn Hx1 Hx2 Hvalid Hcold Herr.
  unfold header_valid, header_pc in *.
  enter_bl32 Himg Hne.
  destruct (get_optee_header_ep e _) as [valid stored]. simpl in Hvalid, Herr. subst valid.
  rewrite Hcold.
  destruct stored as [v|]; run_table.
  all: rewrite ?set_pc_twice in *.
  all: destruct (parse_optee_header e _ _ _) as [[[err ep'] pg'] pd'].
  all: simpl in Herr; apply Z.eqb_neq in Herr.
  all: run_on; rewrite Herr; cbn [negb].
  all: eexists; split; reflexivity.
Qed.

Lemma optee_parse_error_is_fatal_witness :
  exists s',
    bl2_plat_handle_post_image_load fip_build (optee_env false (-22)) 4
                                    (boot_table 0x20000 0x1000) = Halt PanicCalled s'
    /\ effects s' = [] ++ [EvParseOpteeHeader].
Proof.
  apply (optee_parse_error_is_fatal
           fip_build (optee_env false (-22)) (boot_table 0x20000 0x1000)
           (node 2 0x2FFC0000 0x20000) (node 2 0 0) (node 2 0 0));
    by_evaluation.
Defined.

(** X27: on a boot without restored DDR, after a successful parse of the
    OP-TEE header the resolver returns 0 with [arg0] of BL32 set to the
    base the parser gave the paged part, [arg1] and [arg2] set to 0, and
    the boot context saved exactly when the entry point the parser left
    is at or above the DDR base. *)
Theorem optee_parse_sets_boot_args
        (pd : platform_def) (e : plat_env) (s : plat_state)
        (n nx1 nx2 : bl_mem_params_node_t)
        (ep' : entry_point_info_t) (pager' paged' : image_info_t) :
  STM32MP_USE_STM32IMAGE pd = false ->
  BL32_IMAGE_ID pd <> FW_CONFIG_ID pd ->
  BL32_IMAGE_ID pd <> BL32_EXTRA1_IMAGE_ID pd ->
  BL32_IMAGE_ID pd <> BL32_EXTRA2_IMAGE_ID pd ->
  BL32_EXTRA1_IMAGE_ID pd <> BL32_EXTRA2_IMAGE_ID pd ->
  bl_mem_params_desc s !! BL32_IMAGE_ID pd = Some n ->
  bl_mem_params_desc s !! BL32_EXTRA1_IMAGE_ID pd = Some nx1 ->
  bl_mem_params_desc s !! BL32_EXTRA2_IMAGE_ID pd = Some nx2 ->
  header_valid e n = true ->
  stm32mp1_ddr_is_restored e = false ->
  parse_optee_header e (ep_info (set_pc (header_pc e n) n))
                     (image_info nx1) (image_info nx2) = (0, ep', pager', paged') ->
  exists s' n' nx1' nx2',
    bl2_plat_handle_post_image_load pd e (BL32_IMAGE_ID pd) s = Done 0 s'
    /\ bl_mem_params_desc s' !! BL32_IMAGE_ID pd = Some n'
    /\ bl_mem_params_desc s' !! BL32_EXTRA1_IMAGE_ID pd = Some nx1'
    /\ bl_mem_params_desc s' !! BL32_EXTRA2_IMAGE_ID pd = Some nx2'
    /\ arg0 (args (ep_info n')) = image_base paged'
    /\ arg1 (args (ep_info n')) = 0
    /\ arg2 (args (ep_info n')) = 0
    /\ pc (ep_info n') = pc ep'
    /\ image_info n' = image_info n
    /\ image_info nx1' = pager'
    /\ image_info nx2' = paged'
    /\ effects s'
       = effects s ++ [EvParseOpteeHeader]
         ++ (if STM32MP_DDR_BASE pd <=? pc ep' then [EvContextSaveBl2Param] else []).
Proof.
  intros Himg Hne H1 H2 H12 Hn Hx1 Hx2 Hvalid Hcold Hparse.
  unfold header_valid, header_pc in *.
  enter_bl32 Himg Hne.
  destruct (get_optee_header_ep e _) as [valid stored].
  cbn beta iota delta [fst snd] in Hvalid, Hparse. subst valid.
  rewrite Hcold.
  destruct stored as [v|]; cbn beta iota delta [fst snd] in Hparse; run_table.
  all: rewrite ?set_pc_twice in *.
  all: rewrite Hparse; run_on.
  all: change (0 =? 0) with true; run_on.
  all: cbn [pc ep_info set_arg0 set_arg1 set_arg2 set_args set_ep_info].
  all: destruct (STM32MP_DDR_BASE pd <=? pc ep'); run_on.
  all: do 4 eexists; split; [reflexivity|].
  all: repeat (split; [first [find_node | reflexivity]|]).
  all: cbn [effects upd app]; rewrite <- ?app_assoc; reflexivity.
Qed.

Lemma optee_parse_sets_boot_args_witness :
  exists s' n' nx1' nx2',
    bl2_plat_handle_post_image_load fip_build (optee_env false 0) 4
                                    (boot_table 0x20000 0x1000) = Done 0 s'
    /\ bl_mem_params_desc s' !! 4 = Some n'
    /\ bl_mem_params_desc s' !! 21 = Some nx1'
    /\ bl_mem_params_desc s' !! 22 = Some nx2'
    /\ arg0 (args (ep_info n')) = 0xDE200000
    /\ arg1 (args (ep_info n')) = 0
    /\ arg2 (args (ep_info n')) = 0
    /\ pc (ep_info n') = 0xDE000000
    /\ image_info n' = image_info (node 2 0x2FFC0000 0x20000)
    /\ image_info nx1'
       = {| h_attr := 2; image_base := 0xDE000000; image_max_size := 0x200000 |}
    /\ image_info nx2'
       = {| h_attr := 2; image_base := 0xDE200000; image_max_size := 0x100000 |}
    /\ effects s'
       = [] ++ [EvParseOpteeHeader]
         ++ (if 0xC0000000 <=? 0xDE000000 then [EvContextSaveBl2Param] else []).
Proof.
  apply (optee_parse_sets_boot_args
           fip_build (optee_env false 0) (boot_table 0x20000 0x1000)
           (node 2 0x2FFC0000 0x20000) (node 2 0 0) (node 2 0 0)
           (ep_info (set_pc 0xDE000000 (node 2 0x2FFC0000 0x20000)))
           {| h_attr := 2; image_base := 0xDE000000; image_max_size := 0x200000 |}
           {| h_attr := 2; image_base := 0xDE200000; image_max_size := 0x100000 |});
    by_evaluation.
Defined.

(** X28: on a boot with restored DDR, a BL32 with an OP-TEE header is
    never parsed or placed again and the boot context is never saved,
    whatever the saved entry point is: the resolver returns 0, sets the
    entry point to the saved one, and enables the backup SRAM clock
    exactly when that entry lies inside the backup SRAM. *)
Theorem warm_resume_skips_placement
        (pd : platform_def) (e : plat_env) (s : plat_state)
        (n : bl_mem_params_node_t) :
  STM32MP_USE_STM32IMAGE pd = false ->
  BL32_IMAGE_ID pd <> FW_CONFIG_ID pd ->
  bl_mem_params_desc s !! BL32_IMAGE_ID pd = Some n ->
  header_valid e n = true ->
  stm32mp1_ddr_is_restored e = true ->
  exists s',
    bl2_plat_handle_post_image_load pd e (BL32_IMAGE_ID pd) s = Done 0 s'
    /\ bl_mem_params_desc s'
       = <[BL32_IMAGE_ID pd := set_pc (stm32_pm_get_optee_ep e) n]> (bl_mem_params_desc s)
    /\ effects s'
       = effects s
         ++ (if stm32mp1_addr_inside_backupsram e (stm32_pm_get_optee_ep e)
             then [EvClkEnable (BKPSRAM pd)] else []).
Proof.
  intros Himg Hne Hn Hvalid Hw. unfold header_valid in Hvalid.
  enter_bl32 Himg Hne.
  destruct (get_optee_header_ep e _) as [valid stored]. simpl in Hvalid. subst valid.
  rewrite Hw.
  destruct stored as [v|]; run_table.
  all: cbn [pc ep_info set_pc set_ep_info].
  all: destruct (stm32mp1_addr_inside_backupsram e (stm32_pm_get_optee_ep e)); run_on.
  all: rewrite !set_pc_twice.
  all: eexists; split; [reflexivity|]; cbn [effects bl_mem_params_desc upd].
  all: rewrite !insert_insert_eq, ?app_nil_r; split; reflexivity.
Qed.

Lemma warm_resume_skips_placement_witness :
  exists s',
    bl2_plat_handle_post_image_load fip_build (optee_env true 0) 4
                                    (boot_table 0x20000 0x1000) = Done 0 s'
    /\ bl_mem_params_desc s'
       = <[4 := set_pc 0xDE000040 (node 2 0x2FFC0000 0x20000)]>
           (bl_mem_params_desc (boot_table 0x20000 0x1000))
    /\ effects s' = [] ++ [].
Proof.
  apply (warm_resume_skips_placement
           fip_build (optee_env true 0) (boot_table 0x20000 0x1000)
           (node 2 0x2FFC0000 0x20000));
    by_evaluation.
Defined.

(** X29: a plain BL32 in the FIP build keeps the entry point left by the
    header probe, and the boot context is saved exactly when that entry
    is at or above the DDR base. *)
Theorem plain_bl32_context_saved_iff_in_ddr
        (pd : platform_def) (e : plat_env) (s : plat_state)
        (n tos : bl_mem_params_node_t) :
  STM32MP_USE_STM32IMAGE pd = false ->
  BL32_IMAGE_ID pd <> FW_CONFIG_ID pd ->
  BL32_IMAGE_ID pd <> TOS_FW_CONFIG_ID pd ->
  bl_mem_params_desc s !! BL32_IMAGE_ID pd = Some n ->
  bl_mem_params_desc s !! TOS_FW_CONFIG_ID pd = Some tos ->
  header_valid e n = false ->
  exists s' n',
    bl2_plat_handle_post_image_load pd e (BL32_IMAGE_ID pd) s = Done 0 s'
    /\ bl_mem_params_desc s' !! BL32_IMAGE_ID pd = Some n'
    /\ pc (ep_info n') = header_pc e n
    /\ image_base (image_info n') = image_base (image_info n)
    /\ h_attr (image_info n') = h_attr (image_info n)
    /\ (forall k, k <> BL32_IMAGE_ID pd ->
                  bl_mem_params_desc s' !! k = bl_mem_params_desc s !! k)
    /\ effects s'
       = effects s
         ++ (if STM32MP_DDR_BASE pd <=? header_pc e n then [EvContextSaveBl2Param] else []).
Proof.
  intros Himg Hne Hne' Hn Htos Hplain. unfold header_valid, header_pc in *.
  enter_bl32 Himg Hne.
  destruct (get_optee_header_ep e _) as [valid stored].
  cbn beta iota delta [fst snd] in *. subst valid.
  destruct stored as [v|]; run_table.
  all: cbn [pc ep_info set_pc set_ep_info set_arg0 set_args set_image_max_size
            set_image_info image_info].
  all: match goal with
       | |- context [if ?c then call _ else _] => destruct c
       end; run_on.
  all: do 2 eexists; split; [reflexivity|].
  all: split; [find_node|].
  all: cbn; repeat (split; [reflexivity|]).
  all: rewrite ?app_nil_r; split; [|reflexivity].
  all: intros k Hk; rewrite !lookup_insert_ne by congruence; reflexivity.
Qed.

Lemma plain_bl32_context_saved_iff_in_ddr_witness :
  exists s' n',
    bl2_plat_handle_post_image_load fip_build (boot_env false false 0) 4
                                    (boot_table 0x20000 0x1000) = Done 0 s'
    /\ bl_mem_params_desc s' !! 4 = Some n'
    /\ pc (ep_info n') = header_pc (boot_env false false 0) (node 2 0x2FFC0000 0x20000)
    /\ image_base (image_info n') = 0x2FFC0000
    /\ h_attr (image_info n') = 2
    /\ (forall k, k <> 4 ->
                  bl_mem_params_desc s' !! k
                  = bl_mem_params_desc (boot_table 0x20000 0x1000) !! k)
    /\ effects s'
       = [] ++ (if 0xC0000000 <=? header_pc (boot_env false false 0)
                                            (node 2 0x2FFC0000 0x20000)
                then [EvContextSaveBl2Param] else []).
Proof.
  apply (plain_bl32_context_saved_iff_in_ddr
           fip_build (boot_env false false 0) (boot_table 0x20000 0x1000)
           (node 2 0x2FFC0000 0x20000) (node 2 0x2FFCF000 0x1000));
    by_evaluation.
Defined.

(** *** [set_mem_params_info] (STM32IMAGE build with OP-TEE) *)

(** X30: the paged part always goes to the secure area at the top of the DDR;
    the unpaged part goes to the reserved OP-TEE slot exactly when the
    header yields an entry point inside that slot, and to the same DDR
    area otherwise. Nothing outside the table is touched. *)
Theorem set_mem_params_info_placement
        (pd : platform_def) (e : plat_env) (s : plat_state)
        (kb ku kp : Z) (n nu np : bl_mem_params_node_t) :
  ku <> kp ->
  bl_mem_params_desc s !! kb = Some n ->
  bl_mem_params_desc s !! ku = Some nu ->
  bl_mem_params_desc s !! kp = Some np ->
  (BL2_LIMIT pd <=? STM32MP_OPTEE_BASE pd)
  || (u32 (STM32MP_OPTEE_BASE pd + STM32MP_OPTEE_SIZE pd) <=? BL2_BASE pd) = true ->
  exists s' nu' np',
    set_mem_params_info pd e (Some kb) (Some ku) (Some kp) s = Done tt s'
    /\ bl_mem_params_desc s' !! ku = Some nu'
    /\ bl_mem_params_desc s' !! kp = Some np'
    /\ image_base (image_info np') = ddr_secure_base pd e
    /\ image_max_size (image_info np') = STM32MP_DDR_S_SIZE pd
    /\ (image_base (image_info nu'), image_max_size (image_info nu'))
       = (if fst (get_optee_header_ep e (ep_info n))
             && (STM32MP_OPTEE_BASE pd
                 <=? default 0 (snd (get_optee_header_ep e (ep_info n))))
             && (default 0 (snd (get_optee_header_ep e (ep_info n)))
                 <? u32 (STM32MP_OPTEE_BASE pd + STM32MP_OPTEE_SIZE pd))
          then (STM32MP_OPTEE_BASE pd, STM32MP_OPTEE_SIZE pd)
          else (ddr_secure_base pd e, STM32MP_DDR_S_SIZE pd))
    /\ effects s' = effects s.
Proof.
  intros Hne Hn Hnu Hnp Hassert. unfold set_mem_params_info, ddr_secure_base.
  run_table.
  destruct (get_optee_header_ep e (ep_info n)) as [valid stored].
  cbn beta iota delta [fst snd].
  destruct (valid && _ && _); run_table; rewrite ?Hassert; run_table.
  all: do 3 eexists; split; [reflexivity|].
  all: split; [find_node|]. 
  all: split; [find_node|].
  all: cbn; repeat split; reflexivity.
Qed.

Lemma set_mem_params_info_placement_witness :
  exists s' nu' np',
    set_mem_params_info (stm32image_build true) (optee_env false 0)
                        (Some 4) (Some 21) (Some 22) (boot_table 0x20000 0x1000)
    = Done tt s'
    /\ bl_mem_params_desc s' !! 21 = Some nu'
    /\ bl_mem_params_desc s' !! 22 = Some np'
    /\ image_base (image_info np') = ddr_secure_base (stm32image_build true) (optee_env false 0)
    /\ image_max_size (image_info np') = 0x01E00000
    /\ (image_base (image_info nu'), image_max_size (image_info nu'))
       = (if true && (0x2FFC0000 <=? 0xDE000000)
               && (0xDE000000 <? u32 (0x2FFC0000 + 0x00020000))
          then (0x2FFC0000, 0x00020000)
          else (ddr_secure_base (stm32image_build true) (optee_env false 0), 0x01E00000))
    /\ effects s' = [].
Proof.
  apply (set_mem_params_info_placement
           (stm32image_build true) (optee_env false 0) (boot_table 0x20000 0x1000)
           4 21 22 (node 2 0x2FFC0000 0x20000) (node 2 0 0) (node 2 0 0));
    by_evaluation.
Defined.

End PostLoadMore.
